(** * Cross-validated fine-tuning of EfficientNet-B1: the notebook's training
      and evaluation loop

    A shallow embedding of [tumor_detector.ipynb]: the evaluation function
    with its counters and metrics, the training function, the k-fold
    cross-validation cell and the final training and saving cells.

    Conventions.
    - Python [int] is [Z]; Python [float] is modelled by exact rationals [Q]
      (rounding to binary64 is abstracted away); a true division whose divisor
      is zero raises [ZeroDivisionError], as Python's [/] does on both [int]
      and [float].
    - Everything PyTorch computes numerically (forward passes, the loss,
      gradients, AdamW, CyclicLR, the sigmoid, the samplers' random draws) is
      an operation of the interface [Libraries]; the notebook's own control flow
      is written out over it.
    - Mutable Python objects live in a store ([World]) and are referred to by
      address, so that two names for one object stay one object. *)

From Stdlib Require Import ZArith QArith Qabs Lia List Permutation String.
From stdpp Require Import base list.
Import ListNotations.

Open Scope Z_scope.

(** ** Python exceptions and results *)

Inductive PyError : Type :=
| RuntimeError        (* Boolean value of a tensor with more (or less) than one value *)
| ZeroDivisionError
| ValueError.

Inductive result (A : Type) : Type :=
| Ok (a : A)
| Raise (e : PyError).
Arguments Ok {A} a.
Arguments Raise {A} e.

#[global] Instance result_ret : MRet result := fun A a => Ok a.
#[global] Instance result_bind : MBind result := fun A B k r =>
  match r with
  | Ok a => k a
  | Raise e => Raise e
  end.

(** ** Samples and transforms *)

(** The three [v2.Compose] pipelines of the notebook. *)
Inductive Transform : Type :=
| to_tensor
| train_transform     (* random flip, rotation, contrast, sharpness, equalize *)
| test_transform.     (* grayscale, resize, normalize only *)

(** What [dataset[i]] hands out: image [i] of the folder, pushed through the
    transform the dataset object holds at the moment of the access, and its
    class index (0 benign, 1 malignant). *)
Record Sample : Type := mkSample {
  s_index : nat;
  s_transform : option Transform;
  s_label : Z
}.

(** ** The interface of the libraries: PyTorch and scikit-learn *)

Class Libraries : Type := {
  Params : Type;        (* a state dict: every parameter and buffer of the net *)
  Grad : Type;
  OptState : Type;      (* AdamW: learning rate, step count, moment estimates *)
  SchedState : Type;    (* CyclicLR: position in the cycle *)
  (* cancer_net after the architecture cell and [.to(device)] *)
  pretrained : Params;
  (* [model(images)] in eval mode, one logit per sample *)
  logit_eval : Params -> Sample -> Q;
  (* [model(inputs)] in train mode: outputs, and the buffers it updates *)
  forward_train : Params -> list Sample -> nat -> list Q * Params;
  (* [nn.BCEWithLogitsLoss(pos_weight=...)] *)
  loss_fn : list Q -> list Q -> Q;
  (* [loss.backward()]: accumulates into the [.grad] fields *)
  backward : Params -> list Sample -> Q -> option Grad -> Grad;
  (* [optim.AdamW(cancer_net.parameters(), lr=1e-3, weight_decay=1e-4)] *)
  adamw_new : OptState;
  adamw_step : OptState -> Params -> option Grad -> OptState * Params;
  (* [lr_scheduler.CyclicLR(optimizer, ...)]: also sets the optimizer's lr *)
  cyclic_new : OptState -> SchedState * OptState;
  cyclic_step : SchedState -> OptState -> SchedState * OptState;
  (* [torch.sigmoid] *)
  sigmoid : Q -> Q;
  (* the order a shuffling [DataLoader] draws for one pass *)
  random_sampler : nat -> list nat -> list nat;
  (* the order [KFold(shuffle=True, random_state=42)] puts n indices in *)
  kfold_shuffle : nat -> list nat
}.

(** ** Tensors of the evaluation loop

    The net ends in [nn.Linear(128, 1)], so for a batch of B samples
    [outputs] and [predicted] have shape (B, 1); they are kept as the list of
    their B rows' single entries.  [labels] has shape (B,).  Boolean results
    of comparisons are kept as lists of rows. *)

Definition BoolTensor : Type := list (list bool).

(** [predicted == labels]: shapes (B, 1) and (B,) broadcast to (B, B), entry
    (i, j) comparing prediction i with label j. *)
Definition eq_broadcast (predicted labels : list Z) : BoolTensor :=
  map (fun p => map (fun l => Z.eqb p l) labels) predicted.

(** [predicted == 1]: shape (B, 1). *)
Definition eq_scalar (predicted : list Z) (v : Z) : BoolTensor :=
  map (fun p => [Z.eqb p v]) predicted.

(** [t.sum().item()] of a boolean tensor. *)
Definition tensor_sum (t : BoolTensor) : Z :=
  Z.of_nat (length (filter (fun b => b = true) (concat t))).

(** [bool(t)]: defined for exactly one element. *)
Definition tensor_bool (t : BoolTensor) : result bool :=
  match concat t with
  | [b] => Ok b
  | _ => Raise RuntimeError
  end.

(** Python's [x and y] on two tensors: [x] if [bool(x)] is false, else [y]. *)
Definition py_and (x y : BoolTensor) : result BoolTensor :=
  tensor_bool x ≫= λ b : bool, Ok (if b then y else x).

(** [(predicted > threshold).long()] *)
Definition threshold_long (threshold : Q) (probs : list Q) : list Z :=
  map (fun p => if Qle_bool p threshold then 0 else 1) probs.

(** ** evaluate_model: counters and metrics *)

Record Counters : Type := mkCounters {
  total : Z;
  correct : Z;
  total_positive : Z;
  predicted_positive : Z;
  predicted_positive_correct : Z
}.

Definition counters0 : Counters := mkCounters 0 0 0 0 0.

(** True division [a / b] of Python. *)
Definition py_div (a b : Q) : result Q :=
  if Qeq_bool b 0 then Raise ZeroDivisionError else Ok (a / b)%Q.

(** The four assignments after the loop, and the returned tuple. *)
Definition metrics (c : Counters) : result (Q * Q * Q * Q) :=
  accuracy ← py_div (inject_Z (correct c)) (inject_Z (total c));
  precision ← py_div (inject_Z (predicted_positive_correct c))
                       (inject_Z (predicted_positive c));
  recall ← py_div (inject_Z (predicted_positive_correct c))
                    (inject_Z (total_positive c));
  f1_score ← py_div (2 * precision * recall)%Q (precision + recall)%Q;
  Ok (accuracy, precision, recall, f1_score).

Section Evaluator.
Context `{Libraries}.

(** [predicted] of one batch, from the net's parameters. *)
Definition predict (p : Params) (threshold : Q) (batch : list Sample) : list Z :=
  let outputs := map (logit_eval p) batch in
  let predicted := map sigmoid outputs in
  threshold_long threshold predicted.

(** The body of the [for images, labels in data_loader] loop. *)
Definition eval_batch (p : Params) (threshold : Q) (c : Counters)
    (batch : list Sample) : result Counters :=
  let labels := map s_label batch in
  let predicted := predict p threshold batch in
  let total' := total c + Z.of_nat (length labels) in
  let correct' := correct c + tensor_sum (eq_broadcast predicted labels) in
  let total_positive' :=
    total_positive c + tensor_sum [map (fun l => Z.eqb l 1) labels] in
  let predicted_positive' :=
    predicted_positive c + tensor_sum (eq_scalar predicted 1) in
  both ← py_and (eq_broadcast predicted labels) (eq_scalar predicted 1);
  Ok (mkCounters total' correct' total_positive' predicted_positive'
        (predicted_positive_correct c + tensor_sum both)).

(** The loop over already fetched batches. *)
Fixpoint eval_batches (p : Params) (threshold : Q) (c : Counters)
    (batches : list (list Sample)) : result Counters :=
  match batches with
  | [] => Ok c
  | b :: rest =>
      c' ← eval_batch p threshold c b;
      eval_batches p threshold c' rest
  end.

(** [evaluate_model] on the batches a loader yields. *)
Definition evaluate_batches (p : Params) (threshold : Q)
    (batches : list (list Sample)) : result (Q * Q * Q * Q) :=
  c ← eval_batches p threshold counters0 batches;
  metrics c.

End Evaluator.

(** ** The store of mutable objects *)

Definition loc : Type := nat.

Inductive Phase : Type := Training | Evaluation.

(** [torch.utils.data.Subset]: a reference to a dataset object (not a copy)
    and the indices it exposes. *)
Record Subset : Type := mkSubset {
  sub_dataset : loc;
  sub_indices : list nat
}.

Record DataLoader : Type := mkLoader {
  dl_data : Subset;
  dl_batch_size : nat;
  dl_shuffle : bool
}.

(** Lines the notebook prints. *)
Inductive LogLine : Type :=
| LogProgress (fold : option nat) (epoch num_epochs batch n_batches : Z) (loss : Q)
| LogTrainingComplete
| LogTest (m : Q * Q * Q * Q)
| LogAverage (m : Q * Q * Q * Q).

Section Store.
Context `{Libraries}.

(** What happened, in order.  Every operation below that touches the
    library appends its own event. *)
Inductive Event : Type :=
| EBatch (ph : Phase) (batch : list Sample)   (* a loader yielded a batch *)
| EZeroGrad (o : loc)
| EForward (batch : list Sample)
| ELoss (targets : list Q)                  (* loss_fn against these targets *)
| EBackward
| EOptStep (o : loc)
| ESchedStep (s : loc)
| ELoadState (src : loc)
| ESave (p : Params) (path : string).

Record World : Type := mkWorld {
  folder : list Z;                        (* data/: class index of each image *)
  datasets : list (option Transform);     (* ImageFolder objects: .transform *)
  tensors : list Params;                  (* state dicts, by address *)
  grads : option Grad;                    (* the net's .grad fields *)
  training : bool;                        (* the net's mode *)
  optimizers : list (loc * OptState);     (* parameters optimized, state *)
  schedulers : list (loc * SchedState);   (* optimizer wrapped, state *)
  rng : nat;                              (* random draws made so far *)
  stdout : list LogLine;
  files : list (string * Params);         (* what torch.save wrote *)
  trace : list Event
}.

Definition set_datasets (v : list (option Transform)) (w : World) : World :=
  mkWorld (folder w) v (tensors w) (grads w) (training w) (optimizers w)
          (schedulers w) (rng w) (stdout w) (files w) (trace w).
Definition set_tensors (v : list Params) (w : World) : World :=
  mkWorld (folder w) (datasets w) v (grads w) (training w) (optimizers w)
          (schedulers w) (rng w) (stdout w) (files w) (trace w).
Definition set_grads (v : option Grad) (w : World) : World :=
  mkWorld (folder w) (datasets w) (tensors w) v (training w) (optimizers w)
          (schedulers w) (rng w) (stdout w) (files w) (trace w).
Definition set_training (v : bool) (w : World) : World :=
  mkWorld (folder w) (datasets w) (tensors w) (grads w) v (optimizers w)
          (schedulers w) (rng w) (stdout w) (files w) (trace w).
Definition set_optimizers (v : list (loc * OptState)) (w : World) : World :=
  mkWorld (folder w) (datasets w) (tensors w) (grads w) (training w) v
          (schedulers w) (rng w) (stdout w) (files w) (trace w).
Definition set_schedulers (v : list (loc * SchedState)) (w : World) : World :=
  mkWorld (folder w) (datasets w) (tensors w) (grads w) (training w)
          (optimizers w) v (rng w) (stdout w) (files w) (trace w).
Definition set_rng (v : nat) (w : World) : World :=
  mkWorld (folder w) (datasets w) (tensors w) (grads w) (training w)
          (optimizers w) (schedulers w) v (stdout w) (files w) (trace w).
Definition print (l : LogLine) (w : World) : World :=
  mkWorld (folder w) (datasets w) (tensors w) (grads w) (training w)
          (optimizers w) (schedulers w) (rng w) (stdout w ++ [l]) (files w)
          (trace w).
Definition write_file (path : string) (p : Params) (w : World) : World :=
  mkWorld (folder w) (datasets w) (tensors w) (grads w) (training w)
          (optimizers w) (schedulers w) (rng w) (stdout w)
          (files w ++ [(path, p)]) (trace w).
Definition emit (e : Event) (w : World) : World :=
  mkWorld (folder w) (datasets w) (tensors w) (grads w) (training w)
          (optimizers w) (schedulers w) (rng w) (stdout w) (files w)
          (trace w ++ [e]).

(** The state dict stored at an address.  Addresses only come out of
    allocations, so the default is never what is read. *)
Definition params_at (w : World) (l : loc) : Params :=
  default pretrained (tensors w !! l).

(** [model.state_dict()]: a view of the live tensors, the same address. *)
Definition state_dict_of (model : loc) : loc := model.

(** [copy.deepcopy(sd)]: a new object holding the current values. *)
Definition deepcopy (sd : loc) (w : World) : loc * World :=
  (length (tensors w), set_tensors (tensors w ++ [params_at w sd]) w).

(** [model.load_state_dict(sd)]: copies the values of [sd] into the
    model's own tensors. *)
Definition load_state_dict (model sd : loc) (w : World) : World :=
  emit (ELoadState sd)
    (set_tensors (<[model := params_at w sd]> (tensors w)) w).

(** [ds.transform = t] *)
Definition set_transform (ds : loc) (t : Transform) (w : World) : World :=
  set_datasets (<[ds := Some t]> (datasets w)) w.

(** [ImageFolder(root="data", transform=t)] *)
Definition new_image_folder (t : option Transform) (w : World) : loc * World :=
  (length (datasets w), set_datasets (datasets w ++ [t]) w).

(** [optim.AdamW(model.parameters(), ...)] *)
Definition new_adamw (model : loc) (w : World) : loc * World :=
  (length (optimizers w),
   set_optimizers (optimizers w ++ [(model, adamw_new)]) w).

(** [lr_scheduler.CyclicLR(optimizer, ...)] *)
Definition new_cyclic (optimizer : loc) (w : World) : loc * World :=
  match optimizers w !! optimizer with
  | Some (target, st) =>
      let '(ss, st') := cyclic_new st in
      (length (schedulers w),
       set_schedulers (schedulers w ++ [(optimizer, ss)])
         (set_optimizers (<[optimizer := (target, st')]> (optimizers w)) w))
  | None => (length (schedulers w), w)
  end.

(** ** Data loading *)

(** Consecutive pieces of [bs] elements, the last one possibly shorter (the
    loaders keep the last batch).  The notebook's batch sizes are 32 and 1; a
    loader of batch size 0 cannot be constructed. *)
Fixpoint chunks_fuel {A : Type} (fuel bs : nat) (l : list A) : list (list A) :=
  match fuel with
  | O => []
  | S fuel' =>
      match l with
      | [] => []
      | _ :: _ => take bs l :: chunks_fuel fuel' bs (drop bs l)
      end
  end.

Definition chunks {A : Type} (bs : nat) (l : list A) : list (list A) :=
  chunks_fuel (length l) bs l.

(** [len(data_loader)] *)
Definition loader_len (dl : DataLoader) : Z :=
  Z.of_nat (length (chunks (dl_batch_size dl) (sub_indices (dl_data dl)))).

(** The order in which one pass visits the loader's indices: drawn by the
    random sampler if the loader shuffles, as given otherwise. *)
Definition pass_order (dl : DataLoader) (r : nat) : list nat :=
  if dl_shuffle dl then random_sampler r (sub_indices (dl_data dl))
  else sub_indices (dl_data dl).

(** Starting a pass over a loader: the order of the indices, batched. *)
Definition start_pass (dl : DataLoader) (w : World) : list (list nat) * World :=
  (chunks (dl_batch_size dl) (pass_order dl (rng w)),
   if dl_shuffle dl then set_rng (S (rng w)) w else w).

(** Fetching one batch: each sample goes through the transform its dataset
    object holds now.  The indices a splitter or a sampler hands out are
    positions of the folder, so the default label is never what is read. *)
Definition fetch (ds : loc) (w : World) (chunk : list nat) : list Sample :=
  map (fun i => mkSample i (mjoin (datasets w !! ds)) (default 0 (folder w !! i)))
      chunk.

End Store.

Section Trainer.
Context `{Libraries}.

(** ** train_model *)

(** [optimizer.zero_grad()] *)
Definition zero_grad (optimizer : loc) (w : World) : World :=
  emit (EZeroGrad optimizer) (set_grads None w).

(** [outputs = model(inputs)], the net being in train mode. *)
Definition forward (model : loc) (batch : list Sample) (w : World)
    : World * list Q :=
  let '(outputs, p') := forward_train (params_at w model) batch (rng w) in
  (emit (EForward batch)
     (set_rng (S (rng w)) (set_tensors (<[model := p']> (tensors w)) w)),
   outputs).

(** [loss = loss_fn(outputs.view(-1), labels.float())] *)
Definition compute_loss (outputs : list Q) (labels : list Z) (w : World)
    : World * Q :=
  let targets := map inject_Z labels in
  (emit (ELoss targets) w, loss_fn outputs targets).

(** [loss.backward()] *)
Definition loss_backward (model : loc) (batch : list Sample) (loss : Q)
    (w : World) : World :=
  emit EBackward
    (set_grads (Some (backward (params_at w model) batch loss (grads w))) w).

(** [optimizer.step()]: updates, in place, the tensors the optimizer was
    built on, and its own state. *)
Definition optimizer_step (optimizer : loc) (w : World) : World :=
  emit (EOptStep optimizer)
    match optimizers w !! optimizer with
    | Some (target, st) =>
        let '(st', p') := adamw_step st (params_at w target) (grads w) in
        set_optimizers (<[optimizer := (target, st')]> (optimizers w))
          (set_tensors (<[target := p']> (tensors w)) w)
    | None => w
    end.

(** [scheduler.step()]: moves along the cycle and sets the learning rate
    of the optimizer it wraps. *)
Definition scheduler_step (scheduler : loc) (w : World) : World :=
  emit (ESchedStep scheduler)
    match schedulers w !! scheduler with
    | Some (o, ss) =>
        match optimizers w !! o with
        | Some (target, st) =>
            let '(ss', st') := cyclic_step ss st in
            set_schedulers (<[scheduler := (o, ss')]> (schedulers w))
              (set_optimizers (<[o := (target, st')]> (optimizers w)) w)
        | None => w
        end
    | None => w
    end.

(** The six statements on one batch; yields [loss.item()]. *)
Definition train_batch (model optimizer scheduler : loc)
    (batch : list Sample) (w : World) : World * Q :=
  let w := zero_grad optimizer w in
  let '(w, outputs) := forward model batch w in
  let '(w, loss) := compute_loss outputs (map s_label batch) w in
  let w := loss_backward model batch loss w in
  let w := optimizer_step optimizer w in
  let w := scheduler_step scheduler w in
  (w, loss).

(** The inner [for inputs, labels in data_loader] loop, with its batch
    counter [i] and the running [current_loss]. *)
Fixpoint train_pass (model optimizer scheduler : loc) (dl : DataLoader)
    (current_fold : option nat) (epoch num_epochs : Z)
    (pending : list (list nat)) (i : Z) (current_loss : Q) (w : World) : World :=
  match pending with
  | [] => w
  | chunk :: rest =>
      let batch := fetch (sub_dataset (dl_data dl)) w chunk in
      let w := emit (EBatch Training batch) w in
      let '(w, loss) := train_batch model optimizer scheduler batch w in
      let current_loss := (current_loss + loss)%Q in
      if (i mod 10 =? 9) || (i =? loader_len dl - 1) then
        let w := print (LogProgress (S <$> current_fold) (epoch + 1) num_epochs
                          (i + 1) (loader_len dl) current_loss) w in
        train_pass model optimizer scheduler dl current_fold epoch num_epochs
          rest (i + 1) 0%Q w
      else
        train_pass model optimizer scheduler dl current_fold epoch num_epochs
          rest (i + 1) current_loss w
  end.

(** The outer [for epoch in range(num_epochs)] loop. *)
Fixpoint train_epochs (model optimizer scheduler : loc) (dl : DataLoader)
    (current_fold : option nat) (num_epochs : Z) (epochs : list nat)
    (w : World) : World :=
  match epochs with
  | [] => w
  | epoch :: later =>
      let '(pending, w) := start_pass dl w in
      let w := train_pass model optimizer scheduler dl current_fold
                 (Z.of_nat epoch) num_epochs pending 0 0%Q w in
      train_epochs model optimizer scheduler dl current_fold num_epochs later w
  end.

(** [train_model(model, data_loader, optimizer, loss_fn, scheduler,
    current_fold, num_epochs)]; the loss function is the interface's.
    Nothing is returned: the result is the changed store. *)
Definition train_model (model : loc) (data_loader : DataLoader)
    (optimizer scheduler : loc) (current_fold : option nat)
    (num_epochs : nat) (w : World) : World :=
  let w := set_training true w in
  let w := train_epochs model optimizer scheduler data_loader current_fold
             (Z.of_nat num_epochs) (seq 0 num_epochs) w in
  print LogTrainingComplete w.

(** ** evaluate_model *)

(** The loop of [evaluate_model]; an exception leaves it at once. *)
Fixpoint eval_pass (model : loc) (dl : DataLoader) (threshold : Q)
    (pending : list (list nat)) (c : Counters) (w : World)
    : World * result Counters :=
  match pending with
  | [] => (w, Ok c)
  | chunk :: rest =>
      let batch := fetch (sub_dataset (dl_data dl)) w chunk in
      let w := emit (EBatch Evaluation batch) w in
      match eval_batch (params_at w model) threshold c batch with
      | Ok c' => eval_pass model dl threshold rest c' w
      | Raise e => (w, Raise e)
      end
  end.

Definition evaluate_model (model : loc) (data_loader : DataLoader)
    (threshold : Q) (w : World) : World * result (Q * Q * Q * Q) :=
  let w := set_training false w in
  let '(pending, w) := start_pass data_loader w in
  let '(w, r) := eval_pass model data_loader threshold pending counters0 w in
  (w, r ≫= metrics).

End Trainer.

Section Notebook.
Context `{Libraries}.

(** ** The k-fold splitter *)

(** [fold_sizes]: n // k each, the first n % k one larger. *)
Definition fold_sizes (n n_splits : nat) : list nat :=
  replicate (n mod n_splits)%nat (n / n_splits + 1)%nat
  ++ replicate (n_splits - n mod n_splits)%nat (n / n_splits)%nat.

(** Cutting a list into consecutive slices of the given sizes. *)
Fixpoint slices (sizes : list nat) (l : list nat) : list (list nat) :=
  match sizes with
  | [] => []
  | s :: later => take s l :: slices later (drop s l)
  end.

(** Modelled from the spec: [KFold(n_splits, shuffle=True,
    random_state=42).split(dataset)] is scikit-learn's, not among the
    repository's sources.  The spec's Split step partitions the dataset's
    indices into K disjoint test sets by an externally seeded shuffle, each
    fold being a pair (train indices, test indices).  Here: the shuffled
    indices are cut into K consecutive slices of sizes [fold_sizes]; a
    fold's test indices are the indices in its slice and its train indices
    all the others, both in increasing order.  Fewer than two splits, or
    more splits than samples, is a [ValueError]. *)
Definition kfold_split (n_splits n : nat) : result (list (list nat * list nat)) :=
  if (n_splits <? 2)%nat then Raise ValueError
  else if (n <? n_splits)%nat then Raise ValueError
  else
    Ok (map (fun test_mask =>
               (filter (fun i => i ∉ test_mask) (seq 0 n),
                filter (fun i => i ∈ test_mask) (seq 0 n)))
            (slices (fold_sizes n n_splits) (kfold_shuffle n))).

(** ** The names the notebook's cells bind *)

Record Names : Type := mkNames {
  mean_std_dataset : loc;
  dataset : loc;
  cancer_net : loc;
  state_dict : loc
}.

Definition num_epochs : nat := 10.
Definition folds : nat := 5.
Definition batch_size : nat := 32.
Definition weights_path : string := "cancer_net_weights.pth".

(** Sections 2 to 4: the two [ImageFolder] objects, the net, and the deep
    copy of its state dict.  (The mean and standard deviation cell only reads
    [mean_std_dataset]; downloading and device selection leave no trace
    here.)  The folder is given by the labels of its images, 0 for
    [data/benign] and 1 for [data/malignant]; these cells are modelled on the
    folders where both classes hold an image, on which [ImageFolder] finds its
    files and the quotient of the two [os.listdir] lengths in the loss's
    weight is defined.  On other folders the notebook stops in these cells,
    which the statements about whole runs exclude by hypothesis. *)
Definition setup (data : list Z) : Names * World :=
  let w := mkWorld data [] [pretrained] None true [] [] 0%nat [] [] [] in
  let '(mean_std_dataset, w) := new_image_folder (Some to_tensor) w in
  let '(dataset, w) := new_image_folder None w in
  let cancer_net := 0%nat in
  let '(state_dict, w) := deepcopy (state_dict_of cancer_net) w in
  (mkNames mean_std_dataset dataset cancer_net state_dict, w).

(** ** Section 5: the cross-validation cell *)

(** The statements of the loop body up to the two loaders. *)
Definition cv_prepare (nb : Names) (split : list nat * list nat) (w : World)
    : (loc * loc * DataLoader * DataLoader) * World :=
  let '(train_i, test_i) := split in
  let '(optimizer, w) := new_adamw (cancer_net nb) w in
  let '(scheduler, w) := new_cyclic optimizer w in
  let train_data := mkSubset (dataset nb) train_i in
  let w := set_transform (sub_dataset train_data) train_transform w in
  let train_loader := mkLoader train_data batch_size true in
  let test_data := mkSubset (dataset nb) test_i in
  let w := set_transform (sub_dataset test_data) test_transform w in
  let test_loader := mkLoader test_data 1 false in
  ((optimizer, scheduler, train_loader, test_loader), w).

(** The whole loop body. *)
Definition cv_fold (nb : Names) (fold : nat) (split : list nat * list nat)
    (w : World) : World * result (Q * Q * Q * Q) :=
  let '((optimizer, scheduler, train_loader, test_loader), w) :=
    cv_prepare nb split w in
  let w := train_model (cancer_net nb) train_loader optimizer scheduler
             (Some fold) num_epochs w in
  let '(w, r) := evaluate_model (cancer_net nb) test_loader (3 # 10) w in
  match r with
  | Ok m =>
      let w := print (LogTest m) w in
      let w := load_state_dict (cancer_net nb) (state_dict nb) w in
      (w, Ok m)
  | Raise e => (w, Raise e)
  end.

Definition add_metrics (t m : Q * Q * Q * Q) : Q * Q * Q * Q :=
  let '(ta, tp, tr, tf) := t in
  let '(a, p, r, f) := m in
  (ta + a, tp + p, tr + r, tf + f)%Q.

(** [for fold, (train_i, test_i) in enumerate(k_fold.split(dataset))] *)
Fixpoint cv_loop (nb : Names) (fold : nat) (splits : list (list nat * list nat))
    (totals : Q * Q * Q * Q) (w : World) : World * result (Q * Q * Q * Q) :=
  match splits with
  | [] => (w, Ok totals)
  | split :: later =>
      match cv_fold nb fold split w with
      | (w, Ok m) => cv_loop nb (S fold) later (add_metrics totals m) w
      | (w, Raise e) => (w, Raise e)
      end
  end.

Definition cross_validate (nb : Names) (w : World) : World * result unit :=
  match kfold_split folds (length (folder w)) with
  | Raise e => (w, Raise e)
  | Ok splits =>
      match cv_loop nb 0 splits (0, 0, 0, 0)%Q w with
      | (w, Ok (ta, tp, tr, tf)) =>
          let k := inject_Z (Z.of_nat folds) in
          (print (LogAverage (ta / k, tp / k, tr / k, tf / k)%Q) w, Ok tt)
      | (w, Raise e) => (w, Raise e)
      end
  end.

(** The store as the [k]-th iteration of the loop begins, if the loop gets
    that far. *)
Fixpoint world_at_fold (nb : Names) (fold : nat)
    (splits : list (list nat * list nat)) (k : nat) (w : World) : option World :=
  match k, splits with
  | O, _ :: _ => Some w
  | S k', split :: later =>
      match cv_fold nb fold split w with
      | (w', Ok _) => world_at_fold nb (S fold) later k' w'
      | (_, Raise _) => None
      end
  | _, [] => None
  end.

(** ** Section 6: the final model *)

(** The statements of the final training cell before the call. *)
Definition final_prepare (nb : Names) (w : World)
    : (loc * loc * DataLoader) * World :=
  let w := load_state_dict (cancer_net nb) (state_dict nb) w in
  let '(optimizer, w) := new_adamw (cancer_net nb) w in
  let '(scheduler, w) := new_cyclic optimizer w in
  let w := set_transform (dataset nb) train_transform w in
  let dataset_loader :=
    mkLoader (mkSubset (dataset nb) (seq 0 (length (folder w)))) 32 true in
  ((optimizer, scheduler, dataset_loader), w).

Definition final_training (nb : Names) (w : World) : World :=
  let '((optimizer, scheduler, dataset_loader), w) := final_prepare nb w in
  train_model (cancer_net nb) dataset_loader optimizer scheduler None
    num_epochs w.

(** [torch.save(cancer_net.state_dict(), "cancer_net_weights.pth")] *)
Definition save_weights (nb : Names) (w : World) : World :=
  let p := params_at w (state_dict_of (cancer_net nb)) in
  emit (ESave p weights_path) (write_file weights_path p w).

(** The notebook run from top to bottom; a cell that raises stops it. *)
Definition run_all (data : list Z) : World * result unit :=
  let '(nb, w) := setup data in
  match cross_validate nb w with
  | (w, Ok _) => (save_weights nb (final_training nb w), Ok tt)
  | (w, Raise e) => (w, Raise e)
  end.

End Notebook.

(** ** Vocabulary of the statements *)

Section Vocabulary.
Context `{Libraries}.

(** The thresholded prediction for one sample. *)
Definition predict1 (p : Params) (threshold : Q) (s : Sample) : Z :=
  if Qle_bool (sigmoid (logit_eval p s)) threshold then 0 else 1.

(** How the five counters can stand to each other. *)
Definition counters_ok (c : Counters) : Prop :=
  0 <= predicted_positive_correct c
  ∧ predicted_positive_correct c <= predicted_positive c
  ∧ predicted_positive_correct c <= total_positive c
  ∧ predicted_positive c <= total c
  ∧ total_positive c <= total c
  ∧ 0 <= correct c <= total c.

(** The batches one pass over a loader yields in a given store. *)
Definition loader_batches (dl : DataLoader) (w : World) : list (list Sample) :=
  map (fetch (sub_dataset (dl_data dl)) w) (start_pass dl w).1.

(** What [train_model] does on one batch, and on one pass. *)
Definition batch_events (optimizer scheduler : loc) (batch : list Sample)
    : list Event :=
  [EBatch Training batch; EZeroGrad optimizer; EForward batch;
   ELoss (map inject_Z (map s_label batch)); EBackward;
   EOptStep optimizer; ESchedStep scheduler].

Definition pass_events (optimizer scheduler : loc)
    (pass : list (list Sample)) : list Event :=
  concat (map (batch_events optimizer scheduler) pass).

Definition is_save (e : Event) : Prop :=
  match e with ESave _ _ => True | _ => False end.

(** Every batch recorded in a trace was produced under transform [t]. *)
Definition batches_under (t : Transform) (tr : list Event) : Prop :=
  ∀ ph batch, EBatch ph batch ∈ tr →
    Forall (fun s => s_transform s = Some t) batch.

(** Every optimizer in the store was built on the parameters of [net]. *)
Definition targets_net (net : loc) (w : World) : Prop :=
  Forall (fun o => o.1 = net) (optimizers w).

(** What a step of training or evaluation leaves alone: the folder, the
    dataset objects, the files, the number of objects of each kind and, as
    long as every optimizer works on the net's parameters, every state dict
    other than the net's own. *)
Record keeps (net : loc) (w w' : World) : Prop := mkKeeps {
  keeps_folder : folder w' = folder w;
  keeps_datasets : datasets w' = datasets w;
  keeps_files : files w' = files w;
  keeps_tensors_length : length (tensors w') = length (tensors w);
  keeps_optimizers_length : length (optimizers w') = length (optimizers w);
  keeps_schedulers_length : length (schedulers w') = length (schedulers w);
  keeps_frame :
    targets_net net w →
    (∀ l, l ≠ net → tensors w' !! l = tensors w !! l) ∧ targets_net net w'
}.

(** What evaluation leaves alone: everything but the trace, the net's mode
    and the sampler state. *)
Record reads_only (w w' : World) : Prop := mkReadsOnly {
  ro_folder : folder w' = folder w;
  ro_datasets : datasets w' = datasets w;
  ro_files : files w' = files w;
  ro_tensors : tensors w' = tensors w;
  ro_optimizers : optimizers w' = optimizers w;
  ro_schedulers : schedulers w' = schedulers w
}.

(** The events one iteration of the cross-validation loop may add: batches
    produced under transform [t], steps of optimizer [o] and scheduler [s],
    the reload of the state dict [sd]; never a save. *)
Definition fold_event (o s sd : loc) (t : Transform) (e : Event) : Prop :=
  match e with
  | EBatch _ batch | EForward batch =>
      Forall (fun smp => s_transform smp = Some t) batch
  | EZeroGrad o' | EOptStep o' => o' = o
  | ESchedStep s' => s' = s
  | ELoss _ | EBackward => True
  | ELoadState sd' => sd' = sd
  | ESave _ _ => False
  end.

(** The events the whole loop may add. *)
Definition cv_event (t : Transform) (e : Event) : Prop :=
  match e with
  | EBatch _ batch => Forall (fun smp => s_transform smp = Some t) batch
  | ESave _ _ => False
  | _ => True
  end.

(** The optimizer and the scheduler an iteration of the loop builds and
    hands to [train_model], and the store as it does so. *)
Definition fold_optimizer (nb : Names) (split : list nat * list nat)
    (w : World) : loc :=
  (cv_prepare nb split w).1.1.1.1.

Definition fold_scheduler (nb : Names) (split : list nat * list nat)
    (w : World) : loc :=
  (cv_prepare nb split w).1.1.1.2.

Definition fold_prepared (nb : Names) (split : list nat * list nat)
    (w : World) : World :=
  (cv_prepare nb split w).2.

(** The same for the final training cell. *)
Definition final_optimizer (nb : Names) (w : World) : loc :=
  (final_prepare nb w).1.1.1.

Definition final_scheduler (nb : Names) (w : World) : loc :=
  (final_prepare nb w).1.1.2.

Definition final_prepared (nb : Names) (w : World) : World :=
  (final_prepare nb w).2.

Definition is_evaluation_batch (e : Event) : Prop :=
  match e with EBatch Evaluation _ => True | _ => False end.

(** The shape of the store the notebook keeps from [setup] on. *)
Record well_formed (nb : Names) (w : World) : Prop := mkWellFormed {
  wf_net : (cancer_net nb < length (tensors w))%nat;
  wf_snapshot : (state_dict nb < length (tensors w))%nat;
  wf_distinct : cancer_net nb ≠ state_dict nb;
  wf_dataset : (dataset nb < length (datasets w))%nat;
  wf_targets : targets_net (cancer_net nb) w
}.

End Vocabulary.

(** ** The state a training step works on *)

Section TrainingState.
Context `{Libraries}.

(** The net's parameters and gradients, the optimizer's state, the
    scheduler's state and the number of random draws made. *)
Definition TrainState : Type :=
  (Params * option Grad * OptState * SchedState * nat)%type.

(** One batch, on the values alone: gradients cleared, forward pass, loss
    against the labels as floats, backward pass, one AdamW step on the
    parameters, one CyclicLR step on the optimizer. *)
Definition batch_step (batch : list Sample) (st : TrainState) : TrainState :=
  let '(p, _, ost, sst, r) := st in
  let '(outputs, p1) := forward_train p batch r in
  let loss := loss_fn outputs (map inject_Z (map s_label batch)) in
  let g := backward p1 batch loss None in
  let '(ost1, p2) := adamw_step ost p1 (Some g) in
  let '(sst1, ost2) := cyclic_step sst ost1 in
  (p2, Some g, ost2, sst1, S r).

(** One pass: the sampler's draw of a shuffling loader, then the batches. *)
Definition run_pass (shuffle : bool) (pass : list (list Sample))
    (st : TrainState) : TrainState :=
  let '(p, g, ost, sst, r) := st in
  fold_left (fun st batch => batch_step batch st) pass
    (p, g, ost, sst, if shuffle then S r else r).

Definition run_passes (shuffle : bool) (passes : list (list (list Sample)))
    (st : TrainState) : TrainState :=
  fold_left (fun st pass => run_pass shuffle pass st) passes st.

(** The store holds these values: the parameters at the net's address, the
    optimizer registered on the net, the scheduler wrapped around the
    optimizer. *)
Definition store_holds (model optimizer scheduler : loc) (w : World)
    (st : TrainState) : Prop :=
  let '(p, g, ost, sst, r) := st in
  tensors w !! model = Some p
  ∧ grads w = g
  ∧ optimizers w !! optimizer = Some (model, ost)
  ∧ schedulers w !! scheduler = Some (optimizer, sst)
  ∧ rng w = r.

End TrainingState.

(** ** A small concrete instance

    A one-number "network" and a ten-image folder, on which the definitions
    above run to completion. *)

Definition demo_sigmoid (x : Q) : Q := ((1 + x / (1 + Qabs x)) / 2)%Q.

Definition demo_libraries : Libraries := {|
  Params := Z;
  Grad := Z;
  OptState := Z;
  SchedState := Z;
  pretrained := 0;
  logit_eval := fun p s => if Nat.even (s_index s) then 1%Q else (-1)%Q;
  forward_train := fun p batch r => (map (fun _ => inject_Z p) batch, p);
  loss_fn := fun outputs targets => 1%Q;
  backward := fun p batch loss g => 1 + default 0 g;
  adamw_new := 0;
  adamw_step := fun st p g => (st + 1, p - default 0 g);
  cyclic_new := fun st => (0, st);
  cyclic_step := fun ss st => (ss + 1, st);
  sigmoid := demo_sigmoid;
  random_sampler := fun r l => rev l;
  kfold_shuffle := fun n => rev (seq 0 n)
|}.

(** Images at even positions are malignant. *)
Definition demo_data : list Z := [1; 0; 1; 0; 1; 0; 1; 0; 1; 0].

Definition demo_names : Names := (@setup demo_libraries demo_data).1.

(** The store after [setup], the dataset already under [test_transform]. *)
Definition demo_world : @World demo_libraries :=
  @set_transform demo_libraries (dataset demo_names) test_transform
    (@setup demo_libraries demo_data).2.

(** The store of the small instance once an iteration of the loop has built
    its optimizer and scheduler (both at address 0). *)
Definition demo_train_world : @World demo_libraries :=
  @fold_prepared demo_libraries demo_names ([], []) demo_world.

(** A folder of five images on which the second fold finds no positive. *)
Definition demo_failing_data : list Z := [1; 0; 1; 0; 1].

(** The five folds of the small folder. *)
Definition demo_splits : list (list nat * list nat) :=
  match @kfold_split demo_libraries folds (length demo_data) with
  | Ok splits => splits
  | Raise _ => []
  end.

(** A loader over some images of the folder, in order. *)
Definition demo_loader (indices : list nat) (bs : nat) : DataLoader :=
  mkLoader (mkSubset (dataset demo_names) indices) bs false.

(** [evaluate_model(cancer_net, loader, 0.3)] on the small instance. *)
Definition demo_evaluate (indices : list nat) (bs : nat)
    : result (Q * Q * Q * Q) :=
  (@evaluate_model demo_libraries (cancer_net demo_names)
     (demo_loader indices bs) (3 # 10) demo_world).2.

(** The counters its loop ends with. *)
Definition demo_counters (indices : list nat) (bs : nat) : result Counters :=
  @eval_batches demo_libraries
    (@params_at demo_libraries demo_world (cancer_net demo_names))
    (3 # 10) counters0 (@loader_batches demo_libraries (demo_loader indices bs) demo_world).

(** ** The mean and standard deviation cell *)

(** [t.sum()] of a list of numbers. *)
Definition Qsum (l : list Q) : Q := fold_right Qplus 0%Q l.

(** [images.sum(axis=[0, 2, 3])] and [(images**2).sum(axis=[0, 2, 3])] of one
    batch of single-channel images, [pixels i] being image [i] after
    [to_tensor], flattened. *)
Definition batch_sum (pixels : nat -> list Q) (chunk : list nat) : Q :=
  Qsum (map (fun i => Qsum (pixels i)) chunk).

Definition batch_sum_2 (pixels : nat -> list Q) (chunk : list nat) : Q :=
  Qsum (map (fun i => Qsum (map (fun x => (x ^ 2)%Q) (pixels i))) chunk).

(** [n = len(mean_std_loader)*32*(224**2)] for a folder of [n_images]. *)
Definition mean_std_n (n_images : nat) : Z :=
  loader_len (mkLoader (mkSubset 0%nat (seq 0 n_images)) 32 false)
  * 32 * 224 ^ 2.

(** The two accumulators after the loop over [mean_std_loader]. *)
Definition mean_std_sums (pixels : nat -> list Q) (n_images : nat) : Q * Q :=
  fold_left
    (fun acc chunk =>
       (acc.1 + batch_sum pixels chunk, acc.2 + batch_sum_2 pixels chunk)%Q)
    (chunks 32 (seq 0 n_images)) (0, 0)%Q.

(** The cell's [mean], and the number [std] is the square root of.  An
    [ImageFolder] over an empty folder cannot be constructed, so [n] is not
    zero when the divisions are reached. *)
Definition mean_std (pixels : nat -> list Q) (n_images : nat) : Q * Q :=
  let n := inject_Z (mean_std_n n_images) in
  let '(sum, sum_2) := mean_std_sums pixels n_images in
  let mean := (sum / n)%Q in
  (mean, (sum_2 / n - mean ^ 2)%Q).

(** ** Vocabulary of the further properties *)

Section MoreVocabulary.
Context `{Libraries}.

(** How many samples satisfy a test. *)
Definition tally (f : Sample -> bool) (samples : list Sample) : Z :=
  Z.of_nat (length (List.filter f samples)).

(** The confusion counts of the thresholded predictions on some samples. *)
Definition confusion (p : Params) (threshold : Q) (samples : list Sample)
    : Counters :=
  mkCounters
    (Z.of_nat (length samples))
    (tally (fun s => predict1 p threshold s =? s_label s) samples)
    (tally (fun s => s_label s =? 1) samples)
    (tally (fun s => predict1 p threshold s =? 1) samples)
    (tally (fun s => (predict1 p threshold s =? 1) && (s_label s =? 1)) samples).

(** The samples a pass over a loader visits, in order. *)
Definition loader_samples (dl : DataLoader) (w : World) : list Sample :=
  fetch (sub_dataset (dl_data dl)) w (pass_order dl (rng w)).

(** Everything but the trace, the net's mode and the sampler state is the
    same in two stores. *)
Definition same_state (w w' : World) : Prop :=
  folder w' = folder w ∧ datasets w' = datasets w ∧ tensors w' = tensors w
  ∧ grads w' = grads w ∧ optimizers w' = optimizers w
  ∧ schedulers w' = schedulers w ∧ stdout w' = stdout w ∧ files w' = files w.

Definition count_events (f : Event -> bool) (tr : list Event) : nat :=
  length (List.filter f tr).

Definition is_optimizer_step (e : Event) : bool :=
  match e with EOptStep _ => true | _ => false end.

Definition is_scheduler_step (e : Event) : bool :=
  match e with ESchedStep _ => true | _ => false end.

Definition is_training_batch (e : Event) : bool :=
  match e with EBatch Training _ => true | _ => false end.

(** A progress line of a pass of [train_model]: the fold and epoch numbers
    counted from one, and a batch number that is a multiple of ten or the
    number of the pass's last batch. *)
Definition progress_line (current_fold : option nat) (num_epochs n_batches : Z)
    (l : LogLine) : Prop :=
  match l with
  | LogProgress fold epoch epochs batch batches _ =>
      fold = S <$> current_fold ∧ epochs = num_epochs ∧ batches = n_batches
      ∧ 1 <= epoch <= num_epochs ∧ 1 <= batch <= n_batches
      ∧ (batch mod 10 = 0 ∨ batch = n_batches)
  | _ => False
  end.

(** A line reporting the last batch of a pass. *)
Definition last_batch_line (n_batches : Z) (l : LogLine) : Prop :=
  match l with
  | LogProgress _ _ _ batch _ _ => batch = n_batches
  | _ => False
  end.

(** The metric tuples among the printed lines, in order. *)
Definition test_lines (out : list LogLine) : list (Q * Q * Q * Q) :=
  omap (fun l => match l with LogTest m => Some m | _ => None end) out.

(** [total_a, total_p, total_r, total_f1] after adding up some tuples. *)
Definition sum_metrics (ms : list (Q * Q * Q * Q)) : Q * Q * Q * Q :=
  fold_left add_metrics ms (0, 0, 0, 0)%Q.

End MoreVocabulary.

(** Pixels for the small instance: image [i] is [i + 1] pixels of value 1/2. *)
Definition demo_pixels (i : nat) : list Q := replicate (S i) (1 # 2).

(** * Properties *)

(** ** Tensors and the true-positive expression *)

Lemma concat_eq_broadcast_length (predicted labels : list Z) :
  length (concat (eq_broadcast predicted labels))
  = (length predicted * length labels)%nat.
Proof.
  unfold eq_broadcast.
  induction predicted as [|p ps IH]; simpl; [reflexivity|].
  rewrite length_app, length_map, IH. reflexivity.
Qed.

Lemma tensor_bool_ambiguous (t : BoolTensor) :
  length (concat t) ≠ 1%nat → tensor_bool t = Raise RuntimeError.
Proof.
  unfold tensor_bool. intros Hlen.
  destruct (concat t) as [|b [|b' rest]]; simpl in *; congruence.
Qed.


Lemma tensor_sum_one (b : bool) : tensor_sum [[b]] = Z.b2z b.
Proof. destruct b; reflexivity. Qed.

Section EvaluatorFacts.
Context `{Libraries}.

Lemma predict_length p threshold batch :
  length (predict p threshold batch) = length batch.
Proof. unfold predict, threshold_long. rewrite !length_map. reflexivity. Qed.

Lemma predict_map p threshold batch :
  predict p threshold batch = map (predict1 p threshold) batch.
Proof.
  unfold predict, threshold_long, predict1. rewrite !map_map. reflexivity.
Qed.

(** A batch of any size other than one makes the body raise. *)
Lemma eval_batch_not_single p threshold c batch :
  length batch ≠ 1%nat →
  eval_batch p threshold c batch = Raise RuntimeError.
Proof.
  intros Hlen. unfold eval_batch, py_and.
  rewrite tensor_bool_ambiguous; [reflexivity|].
  rewrite concat_eq_broadcast_length, predict_length, length_map.
  destruct (length batch) as [|[|n]]; simpl; lia.
Qed.

(** On a batch of one sample every counter moves as intended; the last
    one by 1 exactly when prediction and label are both 1. *)
Lemma eval_batch_single p threshold c s :
  eval_batch p threshold c [s] =
  Ok (mkCounters
        (total c + 1)
        (correct c + Z.b2z (predict1 p threshold s =? s_label s))
        (total_positive c + Z.b2z (s_label s =? 1))
        (predicted_positive c + Z.b2z (predict1 p threshold s =? 1))
        (predicted_positive_correct c
         + Z.b2z ((predict1 p threshold s =? 1) && (s_label s =? 1)))).
Proof.
  unfold eval_batch. rewrite predict_map. simpl.
  unfold py_and, tensor_bool. simpl.
  rewrite !tensor_sum_one.
  destruct (predict1 p threshold s =? s_label s) eqn:Heq; simpl.
  - apply Z.eqb_eq in Heq. rewrite <- Heq, tensor_sum_one.
    rewrite andb_diag. reflexivity.
  - rewrite tensor_sum_one.
    destruct (predict1 p threshold s =? 1) eqn:Hp;
      destruct (s_label s =? 1) eqn:Hl; simpl; try reflexivity.
    apply Z.eqb_eq in Hp, Hl. apply Z.eqb_neq in Heq. congruence.
Qed.

Lemma eval_batches_ok_single p threshold batches :
  ∀ c c', eval_batches p threshold c batches = Ok c' →
    Forall (fun b => length b = 1%nat) batches.
Proof.
  induction batches as [|b rest IH]; intros c c' Hrun; [constructor|].
  simpl in Hrun.
  destruct (decide (length b = 1%nat)) as [Hb|Hb].
  - destruct (eval_batch p threshold c b) as [c1|e] eqn:Hstep;
      simpl in Hrun; [|discriminate].
    constructor; [exact Hb|]. eapply IH. exact Hrun.
  - rewrite eval_batch_not_single in Hrun by exact Hb. discriminate.
Qed.

Lemma eval_batches_single_ok p threshold batches :
  Forall (fun b => length b = 1%nat) batches →
  ∀ c, ∃ c', eval_batches p threshold c batches = Ok c'.
Proof.
  induction 1 as [|b rest Hb _ IH]; intros c; simpl; [eauto|].
  destruct b as [|s [|s' b']]; simpl in Hb; try discriminate.
  rewrite eval_batch_single. simpl. apply IH.
Qed.

Lemma eval_batches_error p threshold batches :
  ∀ c e, eval_batches p threshold c batches = Raise e → e = RuntimeError.
Proof.
  induction batches as [|b rest IH]; intros c e Hrun; simpl in Hrun;
    [discriminate|].
  destruct (decide (length b = 1%nat)) as [Hb|Hb].
  - destruct b as [|s [|s' b']]; simpl in Hb; try discriminate.
    rewrite eval_batch_single in Hrun. simpl in Hrun. eapply IH, Hrun.
  - rewrite eval_batch_not_single in Hrun by exact Hb.
    simpl in Hrun. congruence.
Qed.

End EvaluatorFacts.

(** ** Metrics *)

Lemma py_div_zero (a b : Q) : (b == 0)%Q → py_div a b = Raise ZeroDivisionError.
Proof. intros Hb. unfold py_div. rewrite (Qeq_eq_bool _ _ Hb). reflexivity. Qed.

Lemma py_div_nonzero (a b : Q) : ¬ (b == 0)%Q → py_div a b = Ok (a / b)%Q.
Proof.
  intros Hb. unfold py_div.
  destruct (Qeq_bool b 0) eqn:E; [|reflexivity].
  apply Qeq_bool_eq in E. contradiction.
Qed.

Lemma inject_Z_zero (z : Z) : (inject_Z z == 0)%Q ↔ z = 0.
Proof. unfold Qeq. simpl. lia. Qed.

Lemma inject_Z_pos (z : Z) : 0 < z → (0 < inject_Z z)%Q.
Proof. intros Hz. change 0%Q with (inject_Z 0). rewrite <- Zlt_Qlt. exact Hz. Qed.

Lemma ratio_pos (a b : Z) : 0 < a → 0 < b → (0 < inject_Z a / inject_Z b)%Q.
Proof.
  intros Ha Hb. unfold Qdiv.
  apply Qmult_lt_0_compat; [|apply Qinv_lt_0_compat]; apply inject_Z_pos; assumption.
Qed.

Lemma ratio_unit_interval (a b : Z) :
  0 <= a <= b → 0 < b → (0 <= inject_Z a / inject_Z b <= 1)%Q.
Proof.
  intros [Ha Hab] Hb. split.
  - apply Qle_shift_div_l; [apply inject_Z_pos; exact Hb|].
    rewrite Qmult_0_l. change 0%Q with (inject_Z 0). rewrite <- Zle_Qle. exact Ha.
  - apply Qle_shift_div_r; [apply inject_Z_pos; exact Hb|].
    rewrite Qmult_1_l. rewrite <- Zle_Qle. exact Hab.
Qed.

Lemma zero_ratio (b : Z) : (inject_Z 0 / inject_Z b == 0)%Q.
Proof. unfold Qdiv. apply Qmult_0_l. Qed.

(** With every denominator positive the four ratios are returned. *)
Lemma metrics_defined (c : Counters) :
  counters_ok c → 0 < predicted_positive_correct c →
  let precision :=
    (inject_Z (predicted_positive_correct c) / inject_Z (predicted_positive c))%Q in
  let recall :=
    (inject_Z (predicted_positive_correct c) / inject_Z (total_positive c))%Q in
  metrics c =
  Ok ((inject_Z (correct c) / inject_Z (total c))%Q, precision, recall,
      (2 * precision * recall / (precision + recall))%Q).
Proof.
  intros (H0 & Hpp & Htp & Hpt & Htt & Hc) Hpos. simpl.
  assert (Ha : ∀ a, py_div a (inject_Z (total c)) = Ok (a / inject_Z (total c))%Q)
    by (intros a; apply py_div_nonzero; rewrite inject_Z_zero; lia).
  assert (Hp : ∀ a, py_div a (inject_Z (predicted_positive c))
                    = Ok (a / inject_Z (predicted_positive c))%Q)
    by (intros a; apply py_div_nonzero; rewrite inject_Z_zero; lia).
  assert (Hr : ∀ a, py_div a (inject_Z (total_positive c))
                    = Ok (a / inject_Z (total_positive c))%Q)
    by (intros a; apply py_div_nonzero; rewrite inject_Z_zero; lia).
  unfold metrics. rewrite Ha, Hp, Hr. simpl.
  rewrite py_div_nonzero; [reflexivity|].
  intros Hsum.
  assert (Hp0 : (0 < inject_Z (predicted_positive_correct c)
                     / inject_Z (predicted_positive c))%Q)
    by (apply ratio_pos; lia).
  assert (Hr0 : (0 < inject_Z (predicted_positive_correct c)
                     / inject_Z (total_positive c))%Q)
    by (apply ratio_pos; lia).
  pose proof (Qplus_lt_le_compat _ _ _ _ Hp0 (Qlt_le_weak _ _ Hr0)) as Hlt.
  rewrite Hsum, Qplus_0_l in Hlt. exact (Qlt_irrefl _ Hlt).
Qed.

(** With a zero among the denominators the function raises. *)
Lemma metrics_zero_denominator (c : Counters) :
  predicted_positive c = 0 ∨ total_positive c = 0
  ∨ predicted_positive_correct c = 0 →
  metrics c = Raise ZeroDivisionError.
Proof.
  intros Hzero. unfold metrics.
  destruct (py_div (inject_Z (correct c)) (inject_Z (total c)))
    as [accuracy|e] eqn:Ha; simpl.
  2:{ unfold py_div in Ha. destruct (Qeq_bool _ _); congruence. }
  destruct (Z.eq_dec (predicted_positive c) 0) as [Hp|Hp].
  { rewrite (py_div_zero _ (inject_Z (predicted_positive c)))
      by (apply inject_Z_zero; exact Hp). reflexivity. }
  rewrite (py_div_nonzero _ (inject_Z (predicted_positive c)))
    by (rewrite inject_Z_zero; exact Hp). simpl.
  destruct (Z.eq_dec (total_positive c) 0) as [Hr|Hr].
  { rewrite (py_div_zero _ (inject_Z (total_positive c)))
      by (apply inject_Z_zero; exact Hr). reflexivity. }
  rewrite (py_div_nonzero _ (inject_Z (total_positive c)))
    by (rewrite inject_Z_zero; exact Hr). simpl.
  destruct Hzero as [?|[?|Hz]]; [contradiction|contradiction|].
  rewrite Hz. rewrite py_div_zero; [reflexivity|].
  rewrite !zero_ratio. reflexivity.
Qed.

Section CounterFacts.
Context `{Libraries}.

Lemma counters0_ok : counters_ok counters0.
Proof. unfold counters_ok, counters0. simpl. lia. Qed.

Lemma eval_batches_counters_ok p threshold batches :
  ∀ c c', counters_ok c → eval_batches p threshold c batches = Ok c' →
    counters_ok c'.
Proof.
  induction batches as [|b rest IH]; intros c c' Hc Hrun; simpl in Hrun.
  - congruence.
  - destruct (decide (length b = 1%nat)) as [Hb|Hb].
    + destruct b as [|s [|s' b']]; simpl in Hb; try discriminate.
      rewrite eval_batch_single in Hrun. simpl in Hrun.
      eapply IH; [|exact Hrun].
      unfold counters_ok in *. simpl.
      destruct (predict1 p threshold s =? s_label s) eqn:E1;
        destruct (predict1 p threshold s =? 1) eqn:E2;
        destruct (s_label s =? 1) eqn:E3; simpl; try lia.
      all: apply Z.eqb_eq in E1, E3; apply Z.eqb_neq in E2; congruence.
    + rewrite eval_batch_not_single in Hrun by exact Hb. discriminate.
Qed.

End CounterFacts.

(** ** Batching *)

Lemma chunks_fuel_one {A : Type} (fuel : nat) :
  ∀ l : list A, Forall (fun ch => length ch = 1%nat) (chunks_fuel fuel 1 l).
Proof.
  induction fuel as [|fuel IH]; intros l; simpl; [constructor|].
  destruct l as [|x l]; [constructor|].
  constructor; [reflexivity|]. apply IH.
Qed.

Lemma chunks_fuel_concat {A : Type} (bs : nat) (fuel : nat) :
  (0 < bs)%nat → ∀ l : list A, (length l <= fuel)%nat →
  concat (chunks_fuel fuel bs l) = l.
Proof.
  intros Hbs. induction fuel as [|fuel IH]; intros l Hlen; simpl.
  - destruct l; simpl in *; [reflexivity|lia].
  - destruct l as [|x l]; [reflexivity|].
    cbn [concat]. rewrite IH.
    + apply take_drop.
    + rewrite length_drop. simpl in *. lia.
Qed.

Lemma chunks_concat {A : Type} (bs : nat) (l : list A) :
  (0 < bs)%nat → concat (chunks bs l) = l.
Proof. intros Hbs. apply chunks_fuel_concat; [exact Hbs|lia]. Qed.

Lemma chunks_one {A : Type} (l : list A) :
  Forall (fun ch => length ch = 1%nat) (chunks 1 l).
Proof. apply chunks_fuel_one. Qed.

Lemma chunks_head_large {A : Type} (bs : nat) (l : list A) :
  (1 < bs)%nat → (1 < length l)%nat →
  ∃ ch rest, chunks bs l = ch :: rest ∧ (1 < length ch)%nat.
Proof.
  intros Hbs Hl. unfold chunks.
  destruct l as [|x l]; simpl in Hl; [lia|].
  simpl. eexists _, _. split; [reflexivity|].
  rewrite length_take. simpl. lia.
Qed.

(** ** evaluate_model through the store *)

Section EvaluateModel.
Context `{Libraries}.

Lemma fetch_length ds w chunk : length (fetch ds w chunk) = length chunk.
Proof. unfold fetch. apply length_map. Qed.

Lemma fetch_indices ds w chunk : map s_index (fetch ds w chunk) = chunk.
Proof. unfold fetch. rewrite map_map. simpl. apply map_id. Qed.

Lemma fetch_same ds w w' chunk :
  datasets w' = datasets w → folder w' = folder w →
  fetch ds w' chunk = fetch ds w chunk.
Proof. intros Hd Hf. unfold fetch. rewrite Hd, Hf. reflexivity. Qed.

Lemma eval_pass_result model dl threshold pending :
  ∀ c w,
    (eval_pass model dl threshold pending c w).2
    = eval_batches (params_at w model) threshold c
        (map (fetch (sub_dataset (dl_data dl)) w) pending).
Proof.
  induction pending as [|chunk rest IH]; intros c w; simpl; [reflexivity|].
  change (params_at (emit _ w) model) with (params_at w model).
  destruct (eval_batch (params_at w model) threshold c
              (fetch (sub_dataset (dl_data dl)) w chunk)) as [c'|e];
    simpl; [|reflexivity].
  rewrite IH. reflexivity.
Qed.

(** What [evaluate_model] returns is [evaluate_batches] of the batches the
    loader yields. *)
Lemma evaluate_model_result model dl threshold w :
  (evaluate_model model dl threshold w).2
  = evaluate_batches (params_at w model) threshold (loader_batches dl w).
Proof.
  unfold evaluate_model, loader_batches, evaluate_batches, start_pass.
  match goal with
  | |- context [eval_pass ?m ?d ?t ?p ?c ?w'] =>
      pose proof (eval_pass_result m d t p c w') as Hp;
      destruct (eval_pass m d t p c w') as [w1 r]
  end.
  simpl in *. rewrite Hp.
  destruct (dl_shuffle dl); reflexivity.
Qed.


Lemma loader_batches_single dl w :
  dl_batch_size dl = 1%nat →
  Forall (fun b => length b = 1%nat) (loader_batches dl w).
Proof.
  intros Hbs. unfold loader_batches, start_pass. simpl. rewrite Hbs.
  apply Forall_map. eapply Forall_impl; [apply chunks_one|].
  intros ch Hch. simpl. rewrite fetch_length. exact Hch.
Qed.

Lemma evaluate_batches_runtime_error p threshold batches :
  evaluate_batches p threshold batches ≠ Raise RuntimeError
  ↔ Forall (fun b => length b = 1%nat) batches.
Proof.
  unfold evaluate_batches. split.
  - intros Hok.
    destruct (eval_batches p threshold counters0 batches) as [c|e] eqn:Hrun.
    + eapply eval_batches_ok_single, Hrun.
    + apply eval_batches_error in Hrun as ->. simpl in Hok. congruence.
  - intros Hsingle.
    destruct (eval_batches_single_ok p threshold batches Hsingle counters0)
      as [c Hrun].
    rewrite Hrun. simpl. unfold metrics, py_div.
    repeat (destruct (Qeq_bool _ _); simpl; try congruence).
Qed.

End EvaluateModel.

(** ** The evaluator: main results *)

Section EvaluatorClaims.
Context `{Libraries}.

(** C10. The expression [(predicted == labels and predicted == 1)] is
    defined only on batches of exactly one sample.  A batch of more than one
    sample makes the loop body raise; [evaluate_model] gets past this error
    exactly when every batch its loader yields holds one sample; a loader
    of batch size 1 guarantees that, and a sequential loader of a larger
    batch size over more than one sample always runs into the error; the
    test loader the cross-validation cell builds has batch size 1. *)
Theorem and_expression_needs_single_sample_batches
    (model : loc) (dl : DataLoader) (threshold : Q) (w : World) :
  (∀ p c batch, (1 < length batch)%nat →
     eval_batch p threshold c batch = Raise RuntimeError)
  ∧ ((evaluate_model model dl threshold w).2 ≠ Raise RuntimeError
     ↔ Forall (fun b => length b = 1%nat) (loader_batches dl w))
  ∧ (dl_batch_size dl = 1%nat →
     (evaluate_model model dl threshold w).2 ≠ Raise RuntimeError)
  ∧ (dl_shuffle dl = false → (1 < dl_batch_size dl)%nat →
     (1 < length (sub_indices (dl_data dl)))%nat →
     (evaluate_model model dl threshold w).2 = Raise RuntimeError)
  ∧ (∀ nb split, dl_batch_size (cv_prepare nb split w).1.2 = 1%nat).
Proof.
  split; [|split; [|split; [|split]]].
  - intros p c batch Hlen. apply eval_batch_not_single. lia.
  - rewrite evaluate_model_result. apply evaluate_batches_runtime_error.
  - intros Hbs. rewrite evaluate_model_result.
    apply evaluate_batches_runtime_error, loader_batches_single, Hbs.
  - intros Hsh Hbs Hn. rewrite evaluate_model_result.
    unfold loader_batches, start_pass, pass_order. rewrite Hsh. simpl.
    destruct (chunks_head_large (dl_batch_size dl)
                (sub_indices (dl_data dl)) Hbs Hn) as (ch & rest & -> & Hch).
    simpl. unfold evaluate_batches. simpl.
    rewrite eval_batch_not_single; [reflexivity|].
    rewrite fetch_length. lia.
  - intros nb [train_i test_i]. unfold cv_prepare.
    destruct (new_adamw (cancer_net nb) w) as [optimizer w1].
    destruct (new_cyclic optimizer w1) as [scheduler w2]. reflexivity.
Qed.

(** C6. When the loop of [evaluate_model] ends with counters [c] and at
    least one correctly predicted positive, the function returns the tuple
    (accuracy, precision, recall, F1) in this order, with
    accuracy = correct / total,
    precision = predicted_positive_correct / predicted_positive,
    recall = predicted_positive_correct / total_positive and
    F1 = 2 * precision * recall / (precision + recall); the accuracy lies in
    [0, 1]; and counters with total 10 and correct 8 give accuracy 0.8. *)
Theorem evaluate_model_returns_four_metrics
    (model : loc) (dl : DataLoader) (threshold : Q) (w : World) (c : Counters) :
  eval_batches (params_at w model) threshold counters0 (loader_batches dl w)
    = Ok c →
  0 < predicted_positive_correct c →
  let accuracy := (inject_Z (correct c) / inject_Z (total c))%Q in
  let precision :=
    (inject_Z (predicted_positive_correct c)
     / inject_Z (predicted_positive c))%Q in
  let recall :=
    (inject_Z (predicted_positive_correct c) / inject_Z (total_positive c))%Q in
  (evaluate_model model dl threshold w).2
    = Ok (accuracy, precision, recall,
          (2 * precision * recall / (precision + recall))%Q)
  ∧ (0 <= accuracy <= 1)%Q
  ∧ (∀ c' a p r f, total c' = 10 → correct c' = 8 →
       metrics c' = Ok (a, p, r, f) → (a == 8 # 10)%Q).
Proof.
  intros Hrun Hpos.
  pose proof (eval_batches_counters_ok _ _ _ _ _ counters0_ok Hrun) as Hok.
  simpl. split; [|split].
  - rewrite evaluate_model_result. unfold evaluate_batches.
    rewrite Hrun. simpl. apply (metrics_defined c Hok Hpos).
  - destruct Hok as (? & ? & ? & ? & ? & ?).
    apply ratio_unit_interval; lia.
  - intros c' a p r f Ht Hc Hm. unfold metrics in Hm.
    rewrite Ht, Hc in Hm. simpl in Hm.
    destruct (py_div (inject_Z (predicted_positive_correct c'))
                (inject_Z (predicted_positive c'))) as [p0|];
      simpl in Hm; [|discriminate].
    destruct (py_div (inject_Z (predicted_positive_correct c'))
                (inject_Z (total_positive c'))) as [r0|];
      simpl in Hm; [|discriminate].
    destruct (py_div (2 * p0 * r0) (p0 + r0)) as [f0|];
      simpl in Hm; [|discriminate].
    inversion Hm; subst. reflexivity.
Qed.

(** C3, as the code has it.  When the loop of [evaluate_model] ends with
    predicted_positive = 0, the function raises [ZeroDivisionError] and
    returns no tuple; likewise when total_positive = 0, and when no positive
    was predicted correctly, which is when precision + recall is 0.  No
    default value is substituted. *)
Theorem evaluate_model_raises_on_zero_denominator
    (model : loc) (dl : DataLoader) (threshold : Q) (w : World) (c : Counters) :
  eval_batches (params_at w model) threshold counters0 (loader_batches dl w)
    = Ok c →
  predicted_positive c = 0 ∨ total_positive c = 0
  ∨ predicted_positive_correct c = 0 →
  (evaluate_model model dl threshold w).2 = Raise ZeroDivisionError.
Proof.
  intros Hrun Hzero. rewrite evaluate_model_result. unfold evaluate_batches.
  rewrite Hrun. simpl. apply metrics_zero_denominator, Hzero.
Qed.

End EvaluatorClaims.

(** C2, at a batch of two samples.  Images 0 and 2 of the small folder are
    both malignant and both predicted positive at threshold 0.3, so the
    counter of correctly predicted positives should grow by 2; the loop body
    raises instead, and so does [evaluate_model] on a loader of batch size 2
    over these two images. *)
Theorem true_positive_count_on_two_sample_batch :
  let batch := [mkSample 0 (Some test_transform) 1;
                mkSample 2 (Some test_transform) 1] in
  @loader_batches demo_libraries (demo_loader [0; 2]%nat 2) demo_world = [batch]
  ∧ @predict demo_libraries 0 (3 # 10) batch = [1; 1]
  ∧ @eval_batch demo_libraries 0 (3 # 10) counters0 batch = Raise RuntimeError
  ∧ demo_evaluate [0; 2]%nat 2 = Raise RuntimeError.
Proof. vm_compute. repeat split; reflexivity. Qed.

Lemma evaluate_model_returns_four_metrics_witness :
  demo_counters [0; 1; 2; 3]%nat 1 = Ok (mkCounters 4 4 2 2 2)
  ∧ demo_evaluate [0; 1; 2; 3]%nat 1
    = Ok ((inject_Z 4 / inject_Z 4)%Q, (inject_Z 2 / inject_Z 2)%Q,
          (inject_Z 2 / inject_Z 2)%Q,
          (2 * (inject_Z 2 / inject_Z 2) * (inject_Z 2 / inject_Z 2)
           / (inject_Z 2 / inject_Z 2 + inject_Z 2 / inject_Z 2))%Q).
Proof.
  assert (Hrun : demo_counters [0; 1; 2; 3]%nat 1 = Ok (mkCounters 4 4 2 2 2))
    by (vm_compute; reflexivity).
  split; [exact Hrun|].
  refine (proj1 (@evaluate_model_returns_four_metrics demo_libraries
                   (cancer_net demo_names) (demo_loader [0; 1; 2; 3]%nat 1)
                   (3 # 10) demo_world (mkCounters 4 4 2 2 2) Hrun _)).
  simpl. lia.
Defined.

Lemma evaluate_model_raises_on_zero_denominator_witness :
  demo_counters [1]%nat 1 = Ok (mkCounters 1 1 0 0 0)
  ∧ demo_evaluate [1]%nat 1 = Raise ZeroDivisionError.
Proof.
  assert (Hrun : demo_counters [1]%nat 1 = Ok (mkCounters 1 1 0 0 0))
    by (vm_compute; reflexivity).
  split; [exact Hrun|].
  apply (@evaluate_model_raises_on_zero_denominator demo_libraries
           (cancer_net demo_names) (demo_loader [1]%nat 1) (3 # 10) demo_world
           (mkCounters 1 1 0 0 0) Hrun).
  left. reflexivity.
Defined.

(** C3 as stated fails: image 1 is benign and predicted negative, so the
    loop ends with predicted_positive = 0, and no tuple with precision 0.0
    comes back. *)
Lemma precision_default_counterexample :
  demo_counters [1]%nat 1 = Ok (mkCounters 1 1 0 0 0)
  ∧ ¬ (∃ accuracy recall f1,
         demo_evaluate [1]%nat 1 = Ok (accuracy, 0%Q, recall, f1)).
Proof.
  split; [vm_compute; reflexivity|].
  intros (a & r & f & Heq). vm_compute in Heq. discriminate.
Qed.

(** ** The k-fold splitter *)

Lemma sum_list_app (l k : list nat) :
  sum_list (l ++ k) = (sum_list l + sum_list k)%nat.
Proof. induction l as [|x l IH]; simpl; [reflexivity|]. rewrite IH. lia. Qed.

Lemma fold_sizes_length (n k : nat) : k ≠ 0%nat → length (fold_sizes n k) = k.
Proof.
  intros Hk. unfold fold_sizes.
  rewrite length_app, !length_replicate.
  pose proof (Nat.mod_upper_bound n k Hk). lia.
Qed.

Lemma fold_sizes_sum (n k : nat) : k ≠ 0%nat → sum_list (fold_sizes n k) = n.
Proof.
  intros Hk. unfold fold_sizes.
  rewrite sum_list_app, !sum_list_replicate.
  pose proof (Nat.mod_upper_bound n k Hk) as Hlt.
  pose proof (Nat.div_mod_eq n k) as Hdm.
  nia.
Qed.

Lemma slices_length (sizes : list nat) :
  ∀ l, length (slices sizes l) = length sizes.
Proof.
  induction sizes as [|s later IH]; intros l; simpl; [reflexivity|].
  rewrite IH. reflexivity.
Qed.

Lemma slices_concat (sizes : list nat) :
  ∀ l, sum_list sizes = length l → concat (slices sizes l) = l.
Proof.
  induction sizes as [|s later IH]; intros l Hsum; simpl in *.
  - destruct l; simpl in *; [reflexivity|discriminate].
  - rewrite IH; [apply take_drop|].
    rewrite length_drop. lia.
Qed.

Lemma concat_Permutation {A : Type} (ls ks : list (list A)) :
  Forall2 Permutation ls ks → concat ls ≡ₚ concat ks.
Proof.
  induction 1 as [|l k ls ks Hlk _ IH]; simpl; [reflexivity|].
  rewrite Hlk, IH. reflexivity.
Qed.

Lemma elem_of_concat {A : Type} (x : A) (l : list A) (ls : list (list A)) :
  x ∈ l → l ∈ ls → x ∈ concat ls.
Proof.
  rewrite !list_elem_of_In. intros Hx Hl. apply in_concat. eauto.
Qed.

(** The members of a duplicate-free concatenation are pairwise disjoint. *)
Lemma NoDup_concat_disjoint {A : Type} (ls : list (list A)) :
  NoDup (concat ls) →
  ∀ i j a b x, i ≠ j → ls !! i = Some a → ls !! j = Some b →
    x ∈ a → x ∉ b.
Proof.
  induction ls as [|h t IH]; intros Hnd i j a b x Hij Ha Hb Hxa Hxb.
  - rewrite lookup_nil in Ha. discriminate.
  - simpl in Hnd. apply NoDup_app in Hnd as (Hh & Hcross & Ht).
    destruct i as [|i], j as [|j]; simpl in Ha, Hb.
    + congruence.
    + injection Ha as <-. apply (Hcross x Hxa).
      eapply elem_of_concat; [exact Hxb|]. eapply list_elem_of_lookup_2, Hb.
    + injection Hb as <-. apply (Hcross x Hxb).
      eapply elem_of_concat; [exact Hxa|]. eapply list_elem_of_lookup_2, Ha.
    + eapply (IH Ht i j a b x); eauto.
Qed.

(** Reading a slice back through the boolean mask gives its members. *)
Lemma mask_indices (n : nat) (slice : list nat) :
  NoDup slice → (∀ x, x ∈ slice → (x < n)%nat) →
  filter (fun i => i ∈ slice) (seq 0 n) ≡ₚ slice.
Proof.
  intros Hnd Hlt. apply NoDup_Permutation.
  - apply NoDup_filter, NoDup_seq.
  - exact Hnd.
  - intros x. rewrite list_elem_of_filter, elem_of_seq.
    split; [tauto|]. intros Hx. split; [exact Hx|].
    specialize (Hlt x Hx). lia.
Qed.

Section KFold.
Context `{Libraries}.

(** C5. For a dataset of [n] samples and K >= 2 splits, the splitter yields
    its folds whenever K <= n, and whenever it yields folds there are K of
    them, their test-index sets taken together hold every index of the
    dataset exactly once, and any two of them are disjoint. *)
Theorem kfold_test_sets_partition (n_splits n : nat) :
  kfold_shuffle n ≡ₚ seq 0 n → (2 <= n_splits)%nat →
  ((n_splits <= n)%nat → ∃ splits, kfold_split n_splits n = Ok splits)
  ∧ ∀ splits, kfold_split n_splits n = Ok splits →
      length splits = n_splits
      ∧ concat (map snd splits) ≡ₚ seq 0 n
      ∧ (∀ i j a b x, i ≠ j →
           splits !! i = Some a → splits !! j = Some b →
           x ∈ a.2 → x ∉ b.2).
Proof.
  intros Hperm Hk. unfold kfold_split.
  destruct (n_splits <? 2)%nat eqn:E2; [apply Nat.ltb_lt in E2; lia|].
  split.
  - intros Hn. destruct (n <? n_splits)%nat eqn:En;
      [apply Nat.ltb_lt in En; lia|]. eauto.
  - intros splits Hsplit.
    destruct (n <? n_splits)%nat; [discriminate|].
    injection Hsplit as <-.
    assert (Hk0 : n_splits ≠ 0%nat) by lia.
    assert (Hcat : concat (slices (fold_sizes n n_splits) (kfold_shuffle n))
                   = kfold_shuffle n).
    { apply slices_concat. rewrite fold_sizes_sum by exact Hk0.
      rewrite Hperm. rewrite length_seq. reflexivity. }
    assert (Hnd : NoDup (concat (slices (fold_sizes n n_splits)
                                   (kfold_shuffle n)))).
    { rewrite Hcat, Hperm. apply NoDup_seq. }
    assert (Htests :
      Forall2 Permutation
        (map snd (map (fun test_mask =>
                         (filter (fun i => i ∉ test_mask) (seq 0 n),
                          filter (fun i => i ∈ test_mask) (seq 0 n)))
                      (slices (fold_sizes n n_splits) (kfold_shuffle n))))
        (slices (fold_sizes n n_splits) (kfold_shuffle n))).
    { rewrite map_map. simpl.
      apply Forall2_fmap_l, Forall_Forall2_diag, Forall_forall.
      intros slice Hin. apply mask_indices.
      - clear -Hnd Hin.
        induction (slices (fold_sizes n n_splits) (kfold_shuffle n))
          as [|h t IH]; [inversion Hin|].
        simpl in Hnd. apply NoDup_app in Hnd as (Hh & _ & Ht).
        apply elem_of_cons in Hin as [->|Hin]; auto.
      - intros x Hx.
        assert (Hxs : x ∈ kfold_shuffle n)
          by (rewrite <- Hcat; eapply elem_of_concat; eauto).
        rewrite Hperm in Hxs. apply elem_of_seq in Hxs. lia. }
    split; [|split].
    + rewrite length_map, slices_length. apply fold_sizes_length, Hk0.
    + rewrite (concat_Permutation _ _ Htests), Hcat. exact Hperm.
    + intros i j a b x Hij Ha Hb.
      apply (NoDup_concat_disjoint
               (map snd (map (fun test_mask =>
                         (filter (fun i => i ∉ test_mask) (seq 0 n),
                          filter (fun i => i ∈ test_mask) (seq 0 n)))
                      (slices (fold_sizes n n_splits) (kfold_shuffle n))))
               ) with (i := i) (j := j); [|exact Hij| |].
      * rewrite (concat_Permutation _ _ Htests). exact Hnd.
      * rewrite list_lookup_fmap, Ha. reflexivity.
      * rewrite list_lookup_fmap, Hb. reflexivity.
Qed.

End KFold.

Lemma kfold_test_sets_partition_witness :
  @kfold_split demo_libraries 5 10
  = Ok [([0; 1; 2; 3; 4; 5; 6; 7]%nat, [8; 9]%nat);
        ([0; 1; 2; 3; 4; 5; 8; 9]%nat, [6; 7]%nat);
        ([0; 1; 2; 3; 6; 7; 8; 9]%nat, [4; 5]%nat);
        ([0; 1; 4; 5; 6; 7; 8; 9]%nat, [2; 3]%nat);
        ([2; 3; 4; 5; 6; 7; 8; 9]%nat, [0; 1]%nat)]
  ∧ [8; 9; 6; 7; 4; 5; 2; 3; 0; 1]%nat ≡ₚ seq 0 10.
Proof.
  assert (Hperm : @kfold_shuffle demo_libraries 10 ≡ₚ seq 0 10)
    by (symmetry; apply Permutation_rev).
  assert (Hk : (2 <= 5)%nat) by lia.
  split; [vm_compute; reflexivity|].
  exact (proj1 (proj2 (proj2 (@kfold_test_sets_partition demo_libraries 5 10 Hperm Hk)
                         _ eq_refl))).
Defined.

(** ** What the steps of training leave alone *)

Section Frames.
Context `{Libraries}.

Lemma keeps_refl net w : keeps net w w.
Proof. constructor; auto. Qed.

Lemma keeps_trans net w1 w2 w3 :
  keeps net w1 w2 → keeps net w2 w3 → keeps net w1 w3.
Proof.
  intros [] []. constructor; try congruence.
  intros Ht. destruct (keeps_frame0 Ht) as [Hl2 Ht2].
  destruct (keeps_frame1 Ht2) as [Hl3 Ht3].
  split; [|exact Ht3].
  intros l Hl. rewrite Hl3, Hl2; auto.
Qed.

Lemma emit_keeps net e w : keeps net w (emit e w).
Proof. constructor; auto. Qed.

Lemma print_keeps net l w : keeps net w (print l w).
Proof. constructor; auto. Qed.

Lemma set_training_keeps net b w : keeps net w (set_training b w).
Proof. constructor; auto. Qed.

Lemma set_rng_keeps net r w : keeps net w (set_rng r w).
Proof. constructor; auto. Qed.

Lemma zero_grad_keeps net o w : keeps net w (zero_grad o w).
Proof. constructor; auto. Qed.

Lemma forward_keeps net batch w : keeps net w (forward net batch w).1.
Proof.
  unfold forward.
  destruct (forward_train (params_at w net) batch (rng w)) as [outputs p'].
  constructor; simpl; auto.
  - apply length_insert.
  - intros Ht. split; [|exact Ht].
    intros l Hl. apply list_lookup_insert_ne. congruence.
Qed.

Lemma compute_loss_keeps net outputs labels w :
  keeps net w (compute_loss outputs labels w).1.
Proof. constructor; auto. Qed.

Lemma loss_backward_keeps net model batch loss w :
  keeps net w (loss_backward model batch loss w).
Proof. constructor; auto. Qed.

Lemma targets_net_insert net (os : list (loc * OptState)) o st :
  Forall (fun o => o.1 = net) os →
  Forall (fun o => o.1 = net) (<[o := (net, st)]> os).
Proof. intros Hos. apply Forall_insert; [exact Hos|reflexivity]. Qed.

Lemma optimizer_step_keeps net o w : keeps net w (optimizer_step o w).
Proof.
  unfold optimizer_step.
  destruct (optimizers w !! o) as [[target st]|] eqn:Ho; [|constructor; auto].
  destruct (adamw_step st (params_at w target) (grads w)) as [st' p'].
  constructor; simpl; auto.
  - apply length_insert.
  - apply length_insert.
  - intros Ht.
    assert (target = net) as ->
      by (exact (proj1 (Forall_lookup _ _) Ht o (target, st) Ho)).
    split; [|apply targets_net_insert, Ht].
    intros l Hl. apply list_lookup_insert_ne. congruence.
Qed.

Lemma scheduler_step_keeps net s w : keeps net w (scheduler_step s w).
Proof.
  unfold scheduler_step.
  destruct (schedulers w !! s) as [[o ss]|] eqn:Hs; [|constructor; auto].
  destruct (optimizers w !! o) as [[target st]|] eqn:Ho; [|constructor; auto].
  destruct (cyclic_step ss st) as [ss' st'].
  constructor; simpl; auto.
  - apply length_insert.
  - apply length_insert.
  - intros Ht.
    assert (target = net) as ->
      by (exact (proj1 (Forall_lookup _ _) Ht o (target, st) Ho)).
    split; [auto|apply targets_net_insert, Ht].
Qed.

Lemma train_batch_keeps net o s batch w :
  keeps net w (train_batch net o s batch w).1.
Proof.
  unfold train_batch.
  pose proof (zero_grad_keeps net o w) as K1.
  pose proof (forward_keeps net batch (zero_grad o w)) as K2.
  destruct (forward net batch (zero_grad o w)) as [w2 outputs]. simpl in K2.
  pose proof (compute_loss_keeps net outputs (map s_label batch) w2) as K3.
  destruct (compute_loss outputs (map s_label batch) w2) as [w3 loss].
  simpl in K3.
  pose proof (loss_backward_keeps net net batch loss w3) as K4.
  pose proof (optimizer_step_keeps net o (loss_backward net batch loss w3)) as K5.
  pose proof (scheduler_step_keeps net s
                (optimizer_step o (loss_backward net batch loss w3))) as K6.
  simpl.
  eapply keeps_trans; [exact K1|]. eapply keeps_trans; [exact K2|].
  eapply keeps_trans; [exact K3|]. eapply keeps_trans; [exact K4|].
  eapply keeps_trans; [exact K5|]. exact K6.
Qed.

Lemma train_batch_trace net o s batch w :
  trace (train_batch net o s batch w).1
  = trace w ++ [EZeroGrad o; EForward batch;
                ELoss (map inject_Z (map s_label batch)); EBackward;
                EOptStep o; ESchedStep s].
Proof.
  unfold train_batch, zero_grad, forward, compute_loss, loss_backward,
    optimizer_step, scheduler_step.
  destruct (forward_train _ _ _) as [outputs p']. simpl.
  repeat match goal with
         | |- context [match ?x with _ => _ end] => destruct x; simpl
         end;
    rewrite <- ?app_assoc; reflexivity.
Qed.

End Frames.

(** ** The trace of train_model *)

Section TrainerFacts.
Context `{Libraries}.

Lemma fetch_map_same net ds w w' (pending : list (list nat)) :
  keeps net w w' → map (fetch ds w') pending = map (fetch ds w) pending.
Proof.
  intros K. apply map_ext. intros ch.
  apply fetch_same; [apply (keeps_datasets _ _ _ K)|apply (keeps_folder _ _ _ K)].
Qed.

Lemma pass_events_cons o s batch pass :
  pass_events o s (batch :: pass) = batch_events o s batch ++ pass_events o s pass.
Proof. reflexivity. Qed.

Lemma train_pass_spec net o s dl fold epoch n pending :
  ∀ i current_loss w,
    keeps net w (train_pass net o s dl fold epoch n pending i current_loss w)
    ∧ trace (train_pass net o s dl fold epoch n pending i current_loss w)
      = trace w
        ++ pass_events o s (map (fetch (sub_dataset (dl_data dl)) w) pending).
Proof.
  induction pending as [|chunk rest IH]; intros i current_loss w.
  - simpl. split; [apply keeps_refl|]. unfold pass_events. simpl.
    rewrite app_nil_r. reflexivity.
  - cbn [train_pass map].
    set (batch := fetch (sub_dataset (dl_data dl)) w chunk).
    pose proof (train_batch_keeps net o s batch (emit (EBatch Training batch) w))
      as K.
    pose proof (train_batch_trace net o s batch (emit (EBatch Training batch) w))
      as T.
    destruct (train_batch net o s batch (emit (EBatch Training batch) w))
      as [w2 loss].
    simpl in K, T.
    assert (K2 : keeps net w w2)
      by (eapply keeps_trans; [apply emit_keeps|exact K]).
    rewrite pass_events_cons.
    destruct ((i mod 10 =? 9) || (i =? loader_len dl - 1)).
    + match goal with
      | |- context [train_pass _ _ _ _ _ _ _ rest ?i' ?cl' (print ?l w2)] =>
          destruct (IH i' cl' (print l w2)) as [K3 T3];
          assert (K4 : keeps net w (print l w2))
            by (eapply keeps_trans; [exact K2|apply print_keeps])
      end.
      split; [eapply keeps_trans; [exact K4|exact K3]|].
      rewrite T3. rewrite (fetch_map_same net _ w _ rest K4).
      simpl. rewrite T. simpl. rewrite <- !app_assoc. reflexivity.
    + destruct (IH (i + 1) (current_loss + loss)%Q w2) as [K3 T3].
      split; [eapply keeps_trans; [exact K2|exact K3]|].
      rewrite T3. rewrite (fetch_map_same net _ w _ rest K2).
      rewrite T. simpl. rewrite <- !app_assoc. reflexivity.
Qed.

(** The passes of a run, from the sampler states they started in. *)
Lemma train_epochs_spec net o s dl fold n epochs :
  ∀ w,
    keeps net w (train_epochs net o s dl fold n epochs w)
    ∧ ∃ rs : list nat,
        length rs = length epochs
        ∧ trace (train_epochs net o s dl fold n epochs w)
          = trace w
            ++ concat (map (fun r =>
                 pass_events o s
                   (map (fetch (sub_dataset (dl_data dl)) w)
                        (chunks (dl_batch_size dl) (pass_order dl r)))) rs).
Proof.
  induction epochs as [|epoch later IH]; intros w.
  - simpl. split; [apply keeps_refl|]. exists []. simpl.
    rewrite app_nil_r. auto.
  - cbn [train_epochs]. unfold start_pass.
    set (w0 := if dl_shuffle dl then set_rng (S (rng w)) w else w).
    assert (K0 : keeps net w w0)
      by (subst w0; destruct (dl_shuffle dl);
          [apply set_rng_keeps|apply keeps_refl]).
    assert (T0 : trace w0 = trace w)
      by (subst w0; destruct (dl_shuffle dl); reflexivity).
    destruct (train_pass_spec net o s dl fold (Z.of_nat epoch) n
                (chunks (dl_batch_size dl) (pass_order dl (rng w))) 0 0%Q w0)
      as [K1 T1].
    set (w1 := train_pass net o s dl fold (Z.of_nat epoch) n
                 (chunks (dl_batch_size dl) (pass_order dl (rng w))) 0 0%Q w0)
      in *.
    destruct (IH w1) as [K2 (rs & Hlen & T2)].
    assert (K01 : keeps net w w1) by (eapply keeps_trans; eauto).
    split; [eapply keeps_trans; eauto|].
    exists (rng w :: rs). split; [simpl; congruence|].
    rewrite T2, T1, T0. simpl. rewrite <- app_assoc.
    rewrite (fetch_map_same net _ w w0 _ K0).
    f_equal. f_equal. f_equal. apply map_ext. intros r.
    rewrite (fetch_map_same net _ w w1 _ K01). reflexivity.
Qed.

Lemma train_model_spec net dl o s fold n w :
  keeps net w (train_model net dl o s fold n w)
  ∧ ∃ rs : list nat,
      length rs = n
      ∧ trace (train_model net dl o s fold n w)
        = trace w
          ++ concat (map (fun r =>
               pass_events o s
                 (map (fetch (sub_dataset (dl_data dl)) w)
                      (chunks (dl_batch_size dl) (pass_order dl r)))) rs).
Proof.
  unfold train_model.
  destruct (train_epochs_spec net o s dl fold (Z.of_nat n) (seq 0 n)
              (set_training true w)) as [K (rs & Hlen & T)].
  split.
  - eapply keeps_trans; [apply set_training_keeps|].
    eapply keeps_trans; [exact K|apply print_keeps].
  - exists rs. split; [rewrite Hlen; apply length_seq|].
    simpl. rewrite T. reflexivity.
Qed.

(** *** The state after training *)

Lemma forward_state model batch w p :
  tensors w !! model = Some p →
  forward model batch w
  = (emit (EForward batch)
       (set_rng (S (rng w))
          (set_tensors
             (<[model := (forward_train p batch (rng w)).2]> (tensors w)) w)),
     (forward_train p batch (rng w)).1).
Proof.
  intros Hp. unfold forward, params_at. rewrite Hp. simpl.
  destruct (forward_train p batch (rng w)); reflexivity.
Qed.

Lemma loss_backward_state model batch loss w p :
  tensors w !! model = Some p →
  loss_backward model batch loss w
  = emit EBackward (set_grads (Some (backward p batch loss (grads w))) w).
Proof.
  intros Hp. unfold loss_backward, params_at. rewrite Hp. reflexivity.
Qed.

Lemma optimizer_step_state o w model ost p :
  optimizers w !! o = Some (model, ost) →
  tensors w !! model = Some p →
  optimizer_step o w
  = emit (EOptStep o)
      (set_optimizers
         (<[o := (model, (adamw_step ost p (grads w)).1)]> (optimizers w))
         (set_tensors
            (<[model := (adamw_step ost p (grads w)).2]> (tensors w)) w)).
Proof.
  intros Ho Hp. unfold optimizer_step, params_at. rewrite Ho, Hp.
  simpl. destruct (adamw_step ost p (grads w)); reflexivity.
Qed.

Lemma scheduler_step_state s w o model sst ost :
  schedulers w !! s = Some (o, sst) →
  optimizers w !! o = Some (model, ost) →
  scheduler_step s w
  = emit (ESchedStep s)
      (set_schedulers (<[s := (o, (cyclic_step sst ost).1)]> (schedulers w))
         (set_optimizers
            (<[o := (model, (cyclic_step sst ost).2)]> (optimizers w)) w)).
Proof.
  intros Hs Ho. unfold scheduler_step. rewrite Hs, Ho.
  destruct (cyclic_step sst ost); reflexivity.
Qed.

Lemma train_batch_state model o s batch w st :
  store_holds model o s w st →
  store_holds model o s (train_batch model o s batch w).1 (batch_step batch st).
Proof.
  destruct st as [[[[p g] ost] sst] r].
  intros (Hp & Hg & Ho & Hs & Hr). subst r.
  pose proof (lookup_lt_Some _ _ _ Hp) as Hlt_p.
  pose proof (lookup_lt_Some _ _ _ Ho) as Hlt_o.
  pose proof (lookup_lt_Some _ _ _ Hs) as Hlt_s.
  unfold train_batch, batch_step.
  rewrite (forward_state model batch (zero_grad o w) p Hp).
  change (rng (zero_grad o w)) with (rng w).
  destruct (forward_train p batch (rng w)) as [outputs p1].
  cbn [fst snd]. unfold compute_loss. cbn [fst snd].
  set (loss := loss_fn outputs (map inject_Z (map s_label batch))).
  match goal with
  | |- context [loss_backward model batch loss ?w'] => set (w2 := w')
  end.
  assert (Hp2 : tensors w2 !! model = Some p1)
    by (subst w2; cbn [tensors emit set_rng set_tensors zero_grad set_grads];
        apply list_lookup_insert_eq; exact Hlt_p).
  rewrite (loss_backward_state model batch loss w2 p1 Hp2).
  change (grads w2) with (@None Grad).
  set (g1 := backward p1 batch loss None).
  set (w3 := emit EBackward (set_grads (Some g1) w2)).
  rewrite (optimizer_step_state o w3 model ost p1 Ho Hp2).
  change (grads w3) with (Some g1).
  destruct (adamw_step ost p1 (Some g1)) as [ost1 p2]. cbn [fst snd].
  match goal with
  | |- context [scheduler_step s ?w'] => set (w4 := w')
  end.
  assert (Ho4 : optimizers w4 !! o = Some (model, ost1))
    by (subst w4; cbn [optimizers emit set_optimizers];
        apply list_lookup_insert_eq; exact Hlt_o).
  rewrite (scheduler_step_state s w4 o model sst ost1 Hs Ho4).
  destruct (cyclic_step sst ost1) as [sst1 ost2]. cbn [fst snd].
  unfold store_holds.
  subst w4 w3 w2.
  cbn [tensors grads optimizers schedulers rng emit set_grads set_rng
       set_tensors set_optimizers set_schedulers zero_grad].
  split_and!; try reflexivity.
  - apply list_lookup_insert_eq. rewrite length_insert. exact Hlt_p.
  - apply list_lookup_insert_eq. rewrite length_insert. exact Hlt_o.
  - apply list_lookup_insert_eq. exact Hlt_s.
Qed.

Lemma store_holds_same model o s w w' st :
  tensors w' = tensors w → grads w' = grads w →
  optimizers w' = optimizers w → schedulers w' = schedulers w →
  rng w' = rng w →
  store_holds model o s w st → store_holds model o s w' st.
Proof.
  destruct st as [[[[p g] ost] sst] r]. unfold store_holds.
  intros -> -> -> -> ->. auto.
Qed.

Lemma train_pass_state model o s dl fold epoch n pending :
  ∀ i current_loss w st,
    store_holds model o s w st →
    store_holds model o s
      (train_pass model o s dl fold epoch n pending i current_loss w)
      (fold_left (fun st batch => batch_step batch st)
         (map (fetch (sub_dataset (dl_data dl)) w) pending) st).
Proof.
  induction pending as [|chunk rest IH]; intros i current_loss w st Hst;
    [exact Hst|].
  cbn [train_pass map fold_left].
  set (batch := fetch (sub_dataset (dl_data dl)) w chunk).
  assert (Hst1 : store_holds model o s (emit (EBatch Training batch) w) st)
    by (eapply store_holds_same; [..|exact Hst]; reflexivity).
  pose proof (train_batch_state model o s batch _ st Hst1) as Hst2.
  pose proof (train_batch_keeps model o s batch (emit (EBatch Training batch) w))
    as K.
  destruct (train_batch model o s batch (emit (EBatch Training batch) w))
    as [w2 loss].
  cbn [fst] in Hst2, K.
  assert (K2 : keeps model w w2)
    by (eapply keeps_trans; [apply emit_keeps|exact K]).
  destruct ((i mod 10 =? 9) || (i =? loader_len dl - 1)).
  - match goal with
    | |- context [train_pass _ _ _ _ _ _ _ rest ?i' ?cl' (print ?l w2)] =>
        assert (K3 : keeps model w (print l w2))
          by (eapply keeps_trans; [exact K2|apply print_keeps]);
        rewrite <- (fetch_map_same model _ w (print l w2) rest K3);
        apply IH
    end.
    eapply store_holds_same; [..|exact Hst2]; reflexivity.
  - rewrite <- (fetch_map_same model _ w w2 rest K2). apply IH. exact Hst2.
Qed.

(** *** The mode after training *)

Lemma train_batch_quiet net o s batch w :
  stdout (train_batch net o s batch w).1 = stdout w
  ∧ training (train_batch net o s batch w).1 = training w.
Proof.
  unfold train_batch, zero_grad, forward, compute_loss, loss_backward,
    optimizer_step, scheduler_step.
  destruct (forward_train _ _ _) as [outputs p']. simpl.
  repeat match goal with
         | |- context [match ?x with _ => _ end] => destruct x; simpl
         end; split; reflexivity.
Qed.

Lemma train_pass_training net o s dl fold epoch n pending :
  ∀ i current_loss w,
    training (train_pass net o s dl fold epoch n pending i current_loss w)
    = training w.
Proof.
  induction pending as [|chunk rest IH]; intros i current_loss w;
    [reflexivity|].
  cbn [train_pass].
  match goal with
  | |- context [train_batch net o s ?b ?w1] =>
      destruct (train_batch_quiet net o s b w1) as [_ Hm];
      destruct (train_batch net o s b w1) as [w2 loss]
  end.
  cbn [fst] in Hm.
  destruct ((i mod 10 =? 9) || (i =? loader_len dl - 1)); rewrite IH;
    exact Hm.
Qed.

Lemma train_epochs_training net o s dl fold n epochs :
  ∀ w, training (train_epochs net o s dl fold n epochs w) = training w.
Proof.
  induction epochs as [|epoch later IH]; intros w; [reflexivity|].
  cbn [train_epochs]. unfold start_pass.
  rewrite IH, train_pass_training. destruct (dl_shuffle dl); reflexivity.
Qed.

(** Trace and state of a run together, over the same passes. *)
Lemma train_epochs_full model o s dl fold n epochs :
  ∀ w st,
    store_holds model o s w st →
    ∃ passes : list (list (list Sample)),
      length passes = length epochs
      ∧ Forall (fun pass =>
                  ∃ r, pass = map (fetch (sub_dataset (dl_data dl)) w)
                                (chunks (dl_batch_size dl) (pass_order dl r)))
               passes
      ∧ trace (train_epochs model o s dl fold n epochs w)
        = trace w ++ concat (map (pass_events o s) passes)
      ∧ store_holds model o s (train_epochs model o s dl fold n epochs w)
          (run_passes (dl_shuffle dl) passes st).
Proof.
  induction epochs as [|epoch later IH]; intros w st Hst.
  - exists []. simpl. rewrite app_nil_r.
    split_and!; try reflexivity; [constructor|exact Hst].
  - cbn [train_epochs]. unfold start_pass.
    set (w0 := if dl_shuffle dl then set_rng (S (rng w)) w else w).
    set (pending := chunks (dl_batch_size dl) (pass_order dl (rng w))).
    set (pass := map (fetch (sub_dataset (dl_data dl)) w) pending).
    assert (K0 : keeps model w w0)
      by (subst w0; destruct (dl_shuffle dl);
          [apply set_rng_keeps|apply keeps_refl]).
    assert (T0 : trace w0 = trace w)
      by (subst w0; destruct (dl_shuffle dl); reflexivity).
    destruct (train_pass_spec model o s dl fold (Z.of_nat epoch) n pending
                0 0%Q w0) as [K1 T1].
    assert (Hst0 : store_holds model o s w0
                     (let '(p, g, ost, sst, r) := st in
                      (p, g, ost, sst, if dl_shuffle dl then S r else r))).
    { destruct st as [[[[p g] ost] sst] r].
      destruct Hst as (Hp & Hg & Ho & Hs & Hr).
      subst w0. unfold store_holds.
      destruct (dl_shuffle dl); cbn [tensors grads optimizers schedulers rng
                                      set_rng]; rewrite ?Hr; auto. }
    pose proof (train_pass_state model o s dl fold (Z.of_nat epoch) n pending
                  0 0%Q w0 _ Hst0) as Hst1.
    rewrite (fetch_map_same model _ w w0 pending K0) in Hst1, T1.
    fold pass in Hst1, T1.
    set (w1 := train_pass model o s dl fold (Z.of_nat epoch) n pending 0 0%Q w0)
      in *.
    assert (K01 : keeps model w w1) by (eapply keeps_trans; eauto).
    destruct (IH w1 _ Hst1) as (passes & Hlen & Hshape & T2 & Hst2).
    exists (pass :: passes).
    split; [simpl; congruence|]. split; [|split].
    + constructor; [exists (rng w); reflexivity|].
      eapply Forall_impl; [exact Hshape|]. intros ps [r ->].
      exists r. apply (fetch_map_same model _ w w1 _ K01).
    + rewrite T2, T1, T0. cbn [map concat]. rewrite <- app_assoc. reflexivity.
    + cbn [run_passes fold_left]. unfold run_pass at 2.
      destruct st as [[[[p g] ost] sst] r]. exact Hst2.
Qed.

(** C7. [train_model] makes exactly [num_epochs] passes over its loader, each
    pass visiting every index of the data source once; on every batch of
    every pass it performs, in this order, the forward computation, the loss
    against the labels cast to floating point, the backward propagation, one
    optimizer step and then one scheduler step (so the scheduler steps once
    per batch).  Its only result is the changed store: given the net's
    parameters, an optimizer built on them and a scheduler around that
    optimizer, the parameters, the gradients, the optimizer's state and the
    scheduler's state afterwards are those obtained by taking, batch after
    batch over the same passes, the gradient of the loss, one AdamW step and
    one CyclicLR step; and the net is in training mode. *)
Theorem train_model_runs_epochs_of_batch_steps
    (model : loc) (data_loader : DataLoader) (optimizer scheduler : loc)
    (current_fold : option nat) (num_epochs : nat) (w : World)
    (p : Params) (ost : OptState) (sst : SchedState) :
  (∀ r l, random_sampler r l ≡ₚ l) →
  (0 < dl_batch_size data_loader)%nat →
  tensors w !! model = Some p →
  optimizers w !! optimizer = Some (model, ost) →
  schedulers w !! scheduler = Some (optimizer, sst) →
  ∃ passes : list (list (list Sample)),
    length passes = num_epochs
    ∧ Forall (fun pass =>
                concat (map (map s_index) pass)
                ≡ₚ sub_indices (dl_data data_loader)) passes
    ∧ trace (train_model model data_loader optimizer scheduler current_fold
               num_epochs w)
      = trace w ++ concat (map (pass_events optimizer scheduler) passes)
    ∧ store_holds model optimizer scheduler
        (train_model model data_loader optimizer scheduler current_fold
           num_epochs w)
        (run_passes (dl_shuffle data_loader) passes
           (p, grads w, ost, sst, rng w))
    ∧ training (train_model model data_loader optimizer scheduler
                  current_fold num_epochs w) = true.
Proof.
  intros Hsampler Hbs Hp Ho Hs.
  assert (Hst : store_holds model optimizer scheduler (set_training true w)
                  (p, grads w, ost, sst, rng w))
    by (unfold store_holds; cbn [tensors grads optimizers schedulers rng
                                  set_training]; auto).
  destruct (train_epochs_full model optimizer scheduler data_loader
              current_fold (Z.of_nat num_epochs) (seq 0 num_epochs)
              (set_training true w) _ Hst)
    as (passes & Hlen & Hshape & T & Hfinal).
  exists passes. rewrite length_seq in Hlen.
  split; [exact Hlen|]. split; [|split; [|split]].
  - eapply Forall_impl; [exact Hshape|]. intros pass [r ->].
    rewrite map_map.
    rewrite (map_ext _ (fun ch => ch)) by (intros ch; apply fetch_indices).
    rewrite map_id, chunks_concat by exact Hbs.
    unfold pass_order.
    destruct (dl_shuffle data_loader); [apply Hsampler|reflexivity].
  - unfold train_model. cbn [trace print]. rewrite T. reflexivity.
  - unfold train_model.
    eapply store_holds_same; [..|exact Hfinal]; reflexivity.
  - unfold train_model. cbn [training print].
    rewrite train_epochs_training. reflexivity.
Qed.

End TrainerFacts.

(** ** One iteration of the cross-validation loop *)

Section FoldFacts.
Context `{Libraries}.


Lemma fetch_transform ds w t chunk :
  datasets w !! ds = Some (Some t) →
  Forall (fun smp => s_transform smp = Some t) (fetch ds w chunk).
Proof.
  intros Hds. unfold fetch. apply Forall_map, Forall_forall.
  intros i _. simpl. rewrite Hds. reflexivity.
Qed.

Lemma batch_events_fold_event o s sd t batch :
  Forall (fun smp => s_transform smp = Some t) batch →
  Forall (fold_event o s sd t) (batch_events o s batch).
Proof. intros Hb. unfold batch_events. repeat constructor; assumption. Qed.

Lemma pass_events_fold_event o s sd t pass :
  Forall (Forall (fun smp => s_transform smp = Some t)) pass →
  Forall (fold_event o s sd t) (pass_events o s pass).
Proof.
  induction 1 as [|b pass Hb _ IH]; [constructor|].
  rewrite pass_events_cons.
  apply Forall_app. split; [apply batch_events_fold_event, Hb|exact IH].
Qed.

Lemma fetched_pass_transform ds w t (pending : list (list nat)) :
  datasets w !! ds = Some (Some t) →
  Forall (Forall (fun smp => s_transform smp = Some t)) (map (fetch ds w) pending).
Proof.
  intros Hds. apply Forall_map, Forall_forall. intros ch _.
  apply fetch_transform, Hds.
Qed.

(** The events of a whole call of [train_model]. *)
Lemma train_model_events net dl o s sd fold n w t :
  datasets w !! sub_dataset (dl_data dl) = Some (Some t) →
  ∃ new, trace (train_model net dl o s fold n w) = trace w ++ new
         ∧ Forall (fold_event o s sd t) new.
Proof.
  intros Hds.
  destruct (train_model_spec net dl o s fold n w) as [_ (rs & _ & T)].
  eexists. split; [exact T|]. clear T.
  induction rs as [|r rs IH]; simpl; [constructor|].
  apply Forall_app. split; [|exact IH].
  apply pass_events_fold_event, fetched_pass_transform, Hds.
Qed.

Lemma eval_pass_world model dl threshold pending t :
  ∀ c w o s sd,
    datasets w !! sub_dataset (dl_data dl) = Some (Some t) →
    reads_only w (eval_pass model dl threshold pending c w).1
    ∧ ∃ new, trace (eval_pass model dl threshold pending c w).1 = trace w ++ new
             ∧ Forall (fold_event o s sd t) new.
Proof.
  induction pending as [|chunk rest IH]; intros c w o s sd Hds.
  - simpl. split; [constructor; reflexivity|].
    exists []. rewrite app_nil_r. split; [reflexivity|constructor].
  - cbn [eval_pass].
    set (batch := fetch (sub_dataset (dl_data dl)) w chunk).
    assert (Hb : fold_event o s sd t (EBatch Evaluation batch))
      by (simpl; apply fetch_transform, Hds).
    destruct (eval_batch _ threshold c batch) as [c'|e].
    + destruct (IH c' (emit (EBatch Evaluation batch) w) o s sd Hds)
        as [[] (new & T & Hnew)].
      split; [constructor; assumption|].
      exists (EBatch Evaluation batch :: new).
      split; [rewrite T; simpl; rewrite <- app_assoc; reflexivity|].
      constructor; assumption.
    + simpl. split; [constructor; reflexivity|].
      exists [EBatch Evaluation batch]. split; [reflexivity|].
      constructor; [exact Hb|constructor].
Qed.

Lemma evaluate_model_world model dl threshold w o s sd t :
  datasets w !! sub_dataset (dl_data dl) = Some (Some t) →
  reads_only w (evaluate_model model dl threshold w).1
  ∧ ∃ new, trace (evaluate_model model dl threshold w).1 = trace w ++ new
           ∧ Forall (fold_event o s sd t) new.
Proof.
  intros Hds. unfold evaluate_model, start_pass.
  set (w0 := if dl_shuffle dl then set_rng (S (rng (set_training false w)))
                                     (set_training false w)
             else set_training false w).
  assert (R0 : reads_only w w0)
    by (subst w0; destruct (dl_shuffle dl); constructor; reflexivity).
  assert (T0 : trace w0 = trace w)
    by (subst w0; destruct (dl_shuffle dl); reflexivity).
  assert (Hds0 : datasets w0 !! sub_dataset (dl_data dl) = Some (Some t))
    by (rewrite (ro_datasets _ _ R0); exact Hds).
  destruct (eval_pass_world model dl threshold
              (chunks (dl_batch_size dl) (pass_order dl (rng (set_training false w))))
              t counters0 w0 o s sd Hds0) as [[] (new & T & Hnew)].
  destruct (eval_pass model dl threshold _ counters0 w0) as [w1 r].
  simpl in *. split.
  - destruct R0. constructor; congruence.
  - exists new. split; [congruence|exact Hnew].
Qed.

End FoldFacts.

Section CrossValidation.
Context `{Libraries}.

(** The statements before the two calls, in closed form: one new optimizer,
    one new scheduler around it, and the dataset's transform assigned twice. *)
Lemma cv_prepare_eq nb split w :
  cv_prepare nb split w =
  ((length (optimizers w), length (schedulers w),
    mkLoader (mkSubset (dataset nb) split.1) batch_size true,
    mkLoader (mkSubset (dataset nb) split.2) 1 false),
   set_datasets
     (<[dataset nb := Some test_transform]>
        (<[dataset nb := Some train_transform]> (datasets w)))
     (set_schedulers
        (schedulers w ++ [(length (optimizers w), (cyclic_new adamw_new).1)])
        (set_optimizers
           (optimizers w ++ [(cancer_net nb, (cyclic_new adamw_new).2)]) w))).
Proof.
  destruct split as [train_i test_i]. unfold cv_prepare, new_adamw, new_cyclic.
  simpl.
  rewrite list_lookup_middle by reflexivity.
  destruct (cyclic_new adamw_new) as [ss st'] eqn:Hc. simpl.
  unfold set_transform, set_datasets, set_schedulers, set_optimizers. simpl.
  rewrite insert_app_r_alt by lia. rewrite Nat.sub_diag. reflexivity.
Qed.

Lemma load_state_dict_params model sd w :
  (model < length (tensors w))%nat →
  params_at (load_state_dict model sd w) model = params_at w sd.
Proof.
  intros Hlt. unfold load_state_dict, params_at at 1. simpl.
  rewrite list_lookup_insert_eq by exact Hlt. reflexivity.
Qed.

Lemma cv_fold_spec nb fold split w :
  well_formed nb w →
  well_formed nb (cv_fold nb fold split w).1
  ∧ tensors (cv_fold nb fold split w).1 !! state_dict nb
    = tensors w !! state_dict nb
  ∧ (∀ m, (cv_fold nb fold split w).2 = Ok m →
       params_at (cv_fold nb fold split w).1 (cancer_net nb)
       = params_at w (state_dict nb))
  ∧ length (optimizers (cv_fold nb fold split w).1) = S (length (optimizers w))
  ∧ length (schedulers (cv_fold nb fold split w).1) = S (length (schedulers w))
  ∧ folder (cv_fold nb fold split w).1 = folder w
  ∧ files (cv_fold nb fold split w).1 = files w
  ∧ ∃ new, trace (cv_fold nb fold split w).1 = trace w ++ new
           ∧ Forall (fold_event (length (optimizers w)) (length (schedulers w))
                       (state_dict nb) test_transform) new.
Proof.
  intros [Hnet Hsd Hne Hds Htg].
  unfold cv_fold. rewrite cv_prepare_eq.
  set (o := length (optimizers w)). set (s := length (schedulers w)).
  set (wp := set_datasets _ _).
  set (trl := mkLoader (mkSubset (dataset nb) split.1) batch_size true).
  set (tel := mkLoader (mkSubset (dataset nb) split.2) 1 false).
  assert (Hdsp : datasets wp !! dataset nb = Some (Some test_transform)).
  { subst wp. simpl. apply list_lookup_insert_eq.
    rewrite length_insert. exact Hds. }
  assert (Htgp : targets_net (cancer_net nb) wp).
  { subst wp. unfold targets_net. simpl.
    apply Forall_app. split; [exact Htg|]. repeat constructor. }
  destruct (train_model_spec (cancer_net nb) trl o s (Some fold) num_epochs wp)
    as [Kt _].
  destruct (train_model_events (cancer_net nb) trl o s (state_dict nb)
              (Some fold) num_epochs wp test_transform Hdsp)
    as (new1 & T1 & Hnew1).
  set (wt := train_model (cancer_net nb) trl o s (Some fold) num_epochs wp) in *.
  assert (Hdst : datasets wt !! dataset nb = Some (Some test_transform))
    by (rewrite (keeps_datasets _ _ _ Kt); exact Hdsp).
  destruct (keeps_frame _ _ _ Kt Htgp) as [Hother Htgt].
  destruct (evaluate_model_world (cancer_net nb) tel (3 # 10) wt o s
              (state_dict nb) test_transform Hdst)
    as [[Rf Rd Rfi Rt Ro Rs] (new2 & T2 & Hnew2)].
  destruct (evaluate_model (cancer_net nb) tel (3 # 10) wt) as [we r].
  cbn [fst snd] in Rf, Rd, Rfi, Rt, Ro, Rs, T2.
  assert (Hlen_t : length (tensors we) = length (tensors w))
    by (rewrite Rt, (keeps_tensors_length _ _ _ Kt); reflexivity).
  assert (Hlen_o : length (optimizers we) = S (length (optimizers w))).
  { rewrite Ro, (keeps_optimizers_length _ _ _ Kt). subst wp. simpl.
    rewrite length_app. simpl. lia. }
  assert (Hlen_s : length (schedulers we) = S (length (schedulers w))).
  { rewrite Rs, (keeps_schedulers_length _ _ _ Kt). subst wp. simpl.
    rewrite length_app. simpl. lia. }
  assert (Hlen_d : length (datasets we) = length (datasets w)).
  { rewrite Rd, (keeps_datasets _ _ _ Kt). subst wp. simpl.
    rewrite !length_insert. reflexivity. }
  assert (Hsd_e : tensors we !! state_dict nb = tensors w !! state_dict nb).
  { rewrite Rt, Hother by auto. reflexivity. }
  assert (Hfo : folder we = folder w)
    by (rewrite Rf, (keeps_folder _ _ _ Kt); reflexivity).
  assert (Hfi : files we = files w)
    by (rewrite Rfi, (keeps_files _ _ _ Kt); reflexivity).
  assert (Htge : targets_net (cancer_net nb) we)
    by (unfold targets_net in *; rewrite Ro; exact Htgt).
  assert (Htr : trace we = trace w ++ (new1 ++ new2)).
  { rewrite T2, T1. subst wp. simpl. rewrite app_assoc. reflexivity. }
  destruct r as [m|e]; simpl.
  - split; [|split; [|split; [|split; [|split; [|split; [|split]]]]]];
      try assumption.
    + constructor; simpl; try assumption.
      * rewrite length_insert, Hlen_t. exact Hnet.
      * rewrite length_insert, Hlen_t. exact Hsd.
      * rewrite Hlen_d. exact Hds.
    + rewrite list_lookup_insert_ne by exact Hne. exact Hsd_e.
    + intros _ _.
      change (params_at (load_state_dict (cancer_net nb) (state_dict nb)
                           (print (LogTest m) we)) (cancer_net nb)
              = params_at w (state_dict nb)).
      rewrite load_state_dict_params by (simpl; rewrite Hlen_t; exact Hnet).
      unfold params_at. simpl. rewrite Hsd_e. reflexivity.
    + exists (new1 ++ new2 ++ [ELoadState (state_dict nb)]).
      split; [rewrite Htr, <- !app_assoc; reflexivity|].
      rewrite !Forall_app. repeat split; try assumption.
      repeat constructor.
  - split; [|split; [|split; [|split; [|split; [|split; [|split]]]]]];
      try assumption.
    + constructor; try assumption.
      * rewrite Hlen_t. exact Hnet.
      * rewrite Hlen_t. exact Hsd.
      * rewrite Hlen_d. exact Hds.
    + intros m Hm. discriminate.
    + exists (new1 ++ new2). split; [exact Htr|].
      rewrite Forall_app. split; assumption.
Qed.

End CrossValidation.

(** ** The loop over the folds *)

Section LoopFacts.
Context `{Libraries}.

Lemma fold_event_cv_event o s sd t e : fold_event o s sd t e → cv_event t e.
Proof. destruct e; simpl; auto. Qed.

Lemma params_at_same w w' l :
  tensors w' !! l = tensors w !! l → params_at w' l = params_at w l.
Proof. intros Hl. unfold params_at. rewrite Hl. reflexivity. Qed.

Lemma world_at_fold_spec nb :
  ∀ k splits fold w wk,
    well_formed nb w → world_at_fold nb fold splits k w = Some wk →
    well_formed nb wk
    ∧ tensors wk !! state_dict nb = tensors w !! state_dict nb
    ∧ ((0 < k)%nat → params_at wk (cancer_net nb) = params_at w (state_dict nb))
    ∧ length (optimizers wk) = (length (optimizers w) + k)%nat
    ∧ length (schedulers wk) = (length (schedulers w) + k)%nat
    ∧ folder wk = folder w
    ∧ files wk = files w
    ∧ ∃ new, trace wk = trace w ++ new ∧ Forall (cv_event test_transform) new.
Proof.
  induction k as [|k IH]; intros splits fold w wk Hwf Hat.
  - destruct splits; simpl in Hat; [discriminate|]. injection Hat as <-.
    split_and!; try (exists []; rewrite app_nil_r; split; [reflexivity|constructor]); auto; lia.
  - destruct splits as [|split later]; simpl in Hat; [discriminate|].
    destruct (cv_fold_spec nb fold split w Hwf)
      as (Hwf1 & Hsd1 & Hnet1 & Ho1 & Hs1 & Hfo1 & Hfi1 & new1 & T1 & Hnew1).
    destruct (cv_fold nb fold split w) as [w1 [m|e]]; [|discriminate].
    cbn [fst snd] in *.
    destruct (IH later (S fold) w1 wk Hwf1 Hat)
      as (Hwfk & Hsdk & Hnetk & Hok & Hsk & Hfok & Hfik & newk & Tk & Hnewk).
    split; [exact Hwfk|]. split; [congruence|]. split.
    { intros _. destruct k as [|k'].
      - destruct later; simpl in Hat; [discriminate|]. injection Hat as <-.
        eapply Hnet1. reflexivity.
      - rewrite Hnetk by lia. apply params_at_same, Hsd1. }
    split; [lia|]. split; [lia|]. split; [congruence|]. split; [congruence|].
    exists (new1 ++ newk). split; [rewrite Tk, T1, app_assoc; reflexivity|].
    apply Forall_app. split; [|exact Hnewk].
    eapply Forall_impl; [exact Hnew1|]. intros e. apply fold_event_cv_event.
Qed.

(** The loop, resumed from the store in which its [k]-th iteration begins. *)
Lemma cv_loop_resumes nb :
  ∀ k splits fold totals w wk,
    world_at_fold nb fold splits k w = Some wk →
    ∃ totals', cv_loop nb fold splits totals w
               = cv_loop nb (fold + k) (drop k splits) totals' wk.
Proof.
  induction k as [|k IH]; intros splits fold totals w wk Hat.
  - destruct splits; simpl in Hat; [discriminate|]. injection Hat as <-.
    exists totals. rewrite Nat.add_0_r. reflexivity.
  - destruct splits as [|split later]; simpl in Hat; [discriminate|].
    cbn [cv_loop drop].
    destruct (cv_fold nb fold split w) as [w1 [m|e]]; [|discriminate].
    destruct (IH later (S fold) (add_metrics totals m) w1 wk Hat) as [t' Ht'].
    exists t'. rewrite Ht'. f_equal. lia.
Qed.

Lemma cv_loop_spec nb :
  ∀ splits fold totals w,
    well_formed nb w →
    well_formed nb (cv_loop nb fold splits totals w).1
    ∧ tensors (cv_loop nb fold splits totals w).1 !! state_dict nb
      = tensors w !! state_dict nb
    ∧ folder (cv_loop nb fold splits totals w).1 = folder w
    ∧ files (cv_loop nb fold splits totals w).1 = files w
    ∧ ∃ new, trace (cv_loop nb fold splits totals w).1 = trace w ++ new
             ∧ Forall (cv_event test_transform) new.
Proof.
  induction splits as [|split later IH]; intros fold totals w Hwf.
  - simpl. split_and!; try (exists []; rewrite app_nil_r; split; [reflexivity|constructor]); auto.
  - cbn [cv_loop].
    destruct (cv_fold_spec nb fold split w Hwf)
      as (Hwf1 & Hsd1 & _ & _ & _ & Hfo1 & Hfi1 & new1 & T1 & Hnew1).
    assert (Hnew1' : Forall (cv_event test_transform) new1)
      by (eapply Forall_impl; [exact Hnew1|];
          intros e; apply fold_event_cv_event).
    destruct (cv_fold nb fold split w) as [w1 [m|e]]; cbn [fst snd] in *.
    + destruct (IH (S fold) (add_metrics totals m) w1 Hwf1)
        as (Hwf2 & Hsd2 & Hfo2 & Hfi2 & new2 & T2 & Hnew2).
      split; [exact Hwf2|]. split; [congruence|]. split; [congruence|].
      split; [congruence|].
      exists (new1 ++ new2). split; [rewrite T2, T1, app_assoc; reflexivity|].
      apply Forall_app. split; assumption.
    + split; [exact Hwf1|]. split; [exact Hsd1|]. split; [exact Hfo1|].
      split; [exact Hfi1|]. exists new1. split; assumption.
Qed.

Lemma cross_validate_spec nb w :
  well_formed nb w →
  well_formed nb (cross_validate nb w).1
  ∧ tensors (cross_validate nb w).1 !! state_dict nb
    = tensors w !! state_dict nb
  ∧ folder (cross_validate nb w).1 = folder w
  ∧ files (cross_validate nb w).1 = files w
  ∧ ∃ new, trace (cross_validate nb w).1 = trace w ++ new
           ∧ Forall (cv_event test_transform) new.
Proof.
  intros Hwf. unfold cross_validate.
  destruct (kfold_split folds (length (folder w))) as [splits|e].
  - destruct (cv_loop_spec nb splits 0%nat (0, 0, 0, 0)%Q w Hwf)
      as (Hwf1 & Hsd1 & Hfo1 & Hfi1 & new1 & T1 & Hnew1).
    destruct (cv_loop nb 0 splits (0, 0, 0, 0)%Q w)
      as [w1 [[[[ta tp] tr] tf]|e]]; cbn [fst snd] in *.
    + split; [destruct Hwf1; constructor; assumption|].
      split_and!; auto. exists new1. split; assumption.
    + split_and!; auto. exists new1. split; assumption.
  - cbn [fst]. split_and!; try (exists []; rewrite app_nil_r; split; [reflexivity|constructor]); auto.
Qed.

Lemma setup_eq data :
  setup data
  = (mkNames 0%nat 1%nat 0%nat 1%nat,
     mkWorld data [Some to_tensor; None] [pretrained; pretrained] None true
       [] [] 0%nat [] [] []).
Proof. reflexivity. Qed.

Lemma setup_well_formed data : well_formed (setup data).1 (setup data).2.
Proof.
  rewrite setup_eq. constructor; simpl; try lia. constructor.
Qed.

End LoopFacts.

(** ** The cross-validation cell: main results *)

Section CrossValidationClaims.
Context `{Libraries}.

Lemma cross_validate_batches data :
  batches_under test_transform
    (trace (cross_validate (setup data).1 (setup data).2).1).
Proof.
  destruct (cross_validate_spec _ _ (setup_well_formed data))
    as (_ & _ & _ & _ & new & T & Hnew).
  intros ph batch Hin. rewrite T in Hin. rewrite setup_eq in Hin. simpl in Hin.
  exact (proj1 (Forall_forall _ _) Hnew _ Hin).
Qed.

(** C4. At the start of every iteration of the cross-validation loop the
    net's parameters equal the snapshot [state_dict] taken by [setup], which
    itself still holds the values the net was constructed with. *)
Theorem model_starts_every_fold_from_snapshot
    (data : list Z) (splits : list (list nat * list nat)) (k : nat) (w : World) :
  let nb := (setup data).1 in
  let w0 := (setup data).2 in
  world_at_fold nb 0 splits k w0 = Some w →
  params_at w (cancer_net nb) = params_at w0 (state_dict nb)
  ∧ params_at w (state_dict nb) = params_at w0 (state_dict nb)
  ∧ params_at w0 (state_dict nb) = pretrained.
Proof.
  intros nb w0 Hat.
  destruct (world_at_fold_spec nb k splits 0%nat w0 w (setup_well_formed data) Hat)
    as (_ & Hsd & Hnet & _).
  split; [|split].
  - destruct k as [|k]; [|apply Hnet; lia].
    destruct splits; simpl in Hat; [discriminate|]. injection Hat as <-.
    reflexivity.
  - apply params_at_same, Hsd.
  - reflexivity.
Qed.

(** C8. The optimizer and the scheduler an iteration of the loop hands to
    [train_model] are objects that did not exist when the iteration began,
    different from those of every earlier iteration, and in the state their
    constructors give them: an AdamW with no history, as CyclicLR's
    constructor leaves it, and a CyclicLR at the start of its cycle around
    it.  Every optimizer and scheduler step of the iteration is a step of
    these two objects. *)
Theorem optimizer_and_scheduler_fresh_per_fold
    (data : list Z) (splits : list (list nat * list nat)) (i j : nat)
    (wi wj : World) (split_i split_j : list nat * list nat) :
  let nb := (setup data).1 in
  let w0 := (setup data).2 in
  (i < j)%nat →
  world_at_fold nb 0 splits i w0 = Some wi →
  world_at_fold nb 0 splits j w0 = Some wj →
  let oj := fold_optimizer nb split_j wj in
  let sj := fold_scheduler nb split_j wj in
  fold_optimizer nb split_i wi ≠ oj
  ∧ fold_scheduler nb split_i wi ≠ sj
  ∧ optimizers wj !! oj = None
  ∧ schedulers wj !! sj = None
  ∧ optimizers (fold_prepared nb split_j wj) !! oj
    = Some (cancer_net nb, (cyclic_new adamw_new).2)
  ∧ schedulers (fold_prepared nb split_j wj) !! sj
    = Some (oj, (cyclic_new adamw_new).1)
  ∧ ∃ new, trace (cv_fold nb j split_j wj).1 = trace wj ++ new
           ∧ (∀ o, EOptStep o ∈ new → o = oj)
           ∧ (∀ s, ESchedStep s ∈ new → s = sj).
Proof.
  intros nb w0 Hij Hi Hj oj sj.
  destruct (world_at_fold_spec nb i splits 0%nat w0 wi (setup_well_formed data) Hi)
    as (_ & _ & _ & Hoi & Hsi & _).
  destruct (world_at_fold_spec nb j splits 0%nat w0 wj (setup_well_formed data) Hj)
    as (Hwfj & _ & _ & Hoj & Hsj & _).
  subst oj sj. unfold fold_optimizer, fold_scheduler, fold_prepared.
  rewrite !cv_prepare_eq. cbn [fst snd].
  split; [lia|]. split; [lia|].
  split; [apply lookup_ge_None_2; lia|].
  split; [apply lookup_ge_None_2; lia|].
  split; [simpl; apply list_lookup_middle; reflexivity|].
  split; [simpl; apply list_lookup_middle; reflexivity|].
  destruct (cv_fold_spec nb j split_j wj Hwfj)
    as (_ & _ & _ & _ & _ & _ & _ & new & T & Hnew).
  exists new. split; [exact T|].
  split; intros x Hx; exact (proj1 (Forall_forall _ _) Hnew _ Hx).
Qed.

End CrossValidationClaims.

(** C1, as the code runs.  In the cross-validation cell the two assignments
    [train_data.dataset.transform = train_transform] and
    [test_data.dataset.transform = test_transform] hit one and the same
    dataset object before either loader is read, so every batch the loop
    draws, the training batches included, comes through [test_transform];
    on the small folder the first training batch of the first fold shows
    it. *)
Theorem cv_training_batches_come_through_test_transform :
  (∀ (T : Libraries) (data : list Z),
     batches_under test_transform
       (trace (@cross_validate T (@setup T data).1 (@setup T data).2).1))
  ∧ head (trace (@run_all demo_libraries demo_data).1)
    = Some (EBatch Training
              (map (fun i => mkSample i (Some test_transform)
                                (if Nat.even i then 1 else 0))
                   [7; 6; 5; 4; 3; 2; 1; 0]%nat)).
Proof.
  split.
  - intros T data. apply cross_validate_batches.
  - vm_compute. reflexivity.
Qed.

Lemma model_starts_every_fold_from_snapshot_witness :
  ∃ w, @world_at_fold demo_libraries demo_names 0 demo_splits 2
         (@setup demo_libraries demo_data).2 = Some w
       ∧ @params_at demo_libraries w (cancer_net demo_names) = 0.
Proof.
  destruct (@world_at_fold demo_libraries demo_names 0 demo_splits 2
              (@setup demo_libraries demo_data).2) as [w|] eqn:Hat;
    [|vm_compute in Hat; discriminate].
  exists w. split; [reflexivity|].
  exact (proj1 (@model_starts_every_fold_from_snapshot demo_libraries demo_data
                  demo_splits 2 w Hat)).
Defined.

Lemma optimizer_and_scheduler_fresh_per_fold_witness :
  ∃ w1, @world_at_fold demo_libraries demo_names 0 demo_splits 1
          (@setup demo_libraries demo_data).2 = Some w1
        ∧ @fold_optimizer demo_libraries demo_names ([], [])
            (@setup demo_libraries demo_data).2
          ≠ @fold_optimizer demo_libraries demo_names ([], []) w1.
Proof.
  destruct (@world_at_fold demo_libraries demo_names 0 demo_splits 1
              (@setup demo_libraries demo_data).2) as [w1|] eqn:Hat;
    [|vm_compute in Hat; discriminate].
  exists w1. split; [reflexivity|].
  refine (proj1 (@optimizer_and_scheduler_fresh_per_fold demo_libraries demo_data
                   demo_splits 0 1 (@setup demo_libraries demo_data).2 w1
                   ([], []) ([], []) _ _ Hat)).
  - lia.
  - reflexivity.
Defined.

(** ** The final training and saving cells *)

Section FinalTraining.
Context `{Libraries}.

Lemma final_prepare_eq nb w :
  let wl := load_state_dict (cancer_net nb) (state_dict nb) w in
  final_prepare nb w =
  ((length (optimizers w), length (schedulers w),
    mkLoader (mkSubset (dataset nb) (seq 0 (length (folder w)))) 32 true),
   set_datasets (<[dataset nb := Some train_transform]> (datasets w))
     (set_schedulers
        (schedulers w ++ [(length (optimizers w), (cyclic_new adamw_new).1)])
        (set_optimizers
           (optimizers w ++ [(cancer_net nb, (cyclic_new adamw_new).2)]) wl))).
Proof.
  unfold final_prepare, new_adamw, new_cyclic. simpl.
  rewrite list_lookup_middle by reflexivity.
  destruct (cyclic_new adamw_new) as [ss st'] eqn:Hc. simpl.
  unfold set_transform, set_datasets, set_schedulers, set_optimizers. simpl.
  rewrite insert_app_r_alt by lia. rewrite Nat.sub_diag. reflexivity.
Qed.

Lemma pass_events_no_evaluation o s pass :
  Forall (fun e => ¬ is_evaluation_batch e) (pass_events o s pass).
Proof.
  induction pass as [|b pass IH]; [constructor|].
  rewrite pass_events_cons. apply Forall_app. split; [|exact IH].
  unfold batch_events. repeat constructor; simpl; tauto.
Qed.


End FinalTraining.

Lemma train_model_runs_epochs_of_batch_steps_witness :
  (∃ passes : list (list (list Sample)),
     length passes = 3%nat
     ∧ Forall (fun pass => concat (map (map s_index) pass) ≡ₚ [0; 1; 2]%nat)
              passes
     ∧ @trace demo_libraries
         (@train_model demo_libraries (cancer_net demo_names)
            (mkLoader (mkSubset (dataset demo_names) [0; 1; 2]%nat) 2 true)
            0%nat 0%nat None 3 demo_train_world)
       = @trace demo_libraries demo_train_world
         ++ concat (map (@pass_events demo_libraries 0%nat 0%nat) passes)
     ∧ @store_holds demo_libraries (cancer_net demo_names) 0%nat 0%nat
         (@train_model demo_libraries (cancer_net demo_names)
            (mkLoader (mkSubset (dataset demo_names) [0; 1; 2]%nat) 2 true)
            0%nat 0%nat None 3 demo_train_world)
         (@run_passes demo_libraries true passes (0, None, 0, 0, 0%nat))
     ∧ @training demo_libraries
         (@train_model demo_libraries (cancer_net demo_names)
            (mkLoader (mkSubset (dataset demo_names) [0; 1; 2]%nat) 2 true)
            0%nat 0%nat None 3 demo_train_world) = true)
  ∧ @tensors demo_libraries demo_train_world = [0; 0]
  ∧ @tensors demo_libraries
      (@train_model demo_libraries (cancer_net demo_names)
         (mkLoader (mkSubset (dataset demo_names) [0; 1; 2]%nat) 2 true)
         0%nat 0%nat None 3 demo_train_world) = [-6; 0]
  ∧ @optimizers demo_libraries
      (@train_model demo_libraries (cancer_net demo_names)
         (mkLoader (mkSubset (dataset demo_names) [0; 1; 2]%nat) 2 true)
         0%nat 0%nat None 3 demo_train_world) = [(0%nat, 6)]
  ∧ @schedulers demo_libraries
      (@train_model demo_libraries (cancer_net demo_names)
         (mkLoader (mkSubset (dataset demo_names) [0; 1; 2]%nat) 2 true)
         0%nat 0%nat None 3 demo_train_world) = [(0%nat, 6)].
Proof.
  split.
  - apply (@train_model_runs_epochs_of_batch_steps demo_libraries
             (cancer_net demo_names)
             (mkLoader (mkSubset (dataset demo_names) [0; 1; 2]%nat) 2 true)
             0%nat 0%nat None 3%nat demo_train_world 0 0 0).
    + intros r l. simpl. symmetry. apply Permutation_rev.
    + simpl. lia.
    + reflexivity.
    + reflexivity.
    + reflexivity.
  - vm_compute. auto.
Defined.


(** * Further properties *)

(** ** What evaluate_model counts and returns *)

Lemma chunks_fuel_singletons {A : Type} (fuel : nat) :
  ∀ l : list A, (length l <= fuel)%nat →
  chunks_fuel fuel 1 l = map (fun x => [x]) l.
Proof.
  induction fuel as [|fuel IH]; intros l Hlen.
  - destruct l; simpl in *; [reflexivity|lia].
  - destruct l as [|x l]; [reflexivity|].
    simpl. rewrite take_0, drop_0. rewrite IH by (simpl in Hlen; lia).
    reflexivity.
Qed.

Lemma chunks_singletons {A : Type} (l : list A) :
  chunks 1 l = map (fun x => [x]) l.
Proof. apply chunks_fuel_singletons. lia. Qed.

Section EvaluatorMore.
Context `{Libraries}.

Lemma tally_cons f s samples :
  tally f (s :: samples) = Z.b2z (f s) + tally f samples.
Proof. unfold tally. simpl. destruct (f s); simpl; lia. Qed.

Lemma eval_batches_singletons p threshold samples :
  ∀ c,
    eval_batches p threshold c (map (fun s => [s]) samples)
    = Ok (mkCounters
            (total c + total (confusion p threshold samples))
            (correct c + correct (confusion p threshold samples))
            (total_positive c + total_positive (confusion p threshold samples))
            (predicted_positive c
             + predicted_positive (confusion p threshold samples))
            (predicted_positive_correct c
             + predicted_positive_correct (confusion p threshold samples))).
Proof.
  induction samples as [|s samples IH]; intros c.
  - destruct c. simpl. unfold tally. simpl. rewrite !Z.add_0_r. reflexivity.
  - cbn [map eval_batches]. rewrite eval_batch_single.
    change (Ok ?x ≫= ?k) with (k x). cbv beta. rewrite IH.
    cbn [total correct total_positive predicted_positive
         predicted_positive_correct confusion].
    rewrite !tally_cons. f_equal. f_equal; try lia.
    cbn [length]. lia.
Qed.

Lemma loader_batches_singletons dl w :
  dl_batch_size dl = 1%nat →
  loader_batches dl w = map (fun s => [s]) (loader_samples dl w).
Proof.
  intros Hbs. unfold loader_batches, loader_samples, start_pass. simpl.
  rewrite Hbs, chunks_singletons. unfold fetch. rewrite !map_map. reflexivity.
Qed.

(** X1. With a loader of batch size 1, [evaluate_model] computes its four
    ratios from the confusion counts of the samples it visits: their number,
    the correct predictions, the positives, the predicted positives and the
    correctly predicted positives. *)
Theorem evaluate_model_single_sample_confusion
    (model : loc) (dl : DataLoader) (threshold : Q) (w : World) :
  dl_batch_size dl = 1%nat →
  (evaluate_model model dl threshold w).2
  = metrics (confusion (params_at w model) threshold (loader_samples dl w)).
Proof.
  intros Hbs. rewrite evaluate_model_result. unfold evaluate_batches.
  rewrite (loader_batches_singletons dl w Hbs), eval_batches_singletons.
  reflexivity.
Qed.

Lemma eval_batches_positive_correct p threshold batches :
  ∀ c c',
    predicted_positive_correct c <= correct c →
    eval_batches p threshold c batches = Ok c' →
    predicted_positive_correct c' <= correct c'.
Proof.
  induction batches as [|b rest IH]; intros c c' Hc Hrun; simpl in Hrun.
  - congruence.
  - destruct (decide (length b = 1%nat)) as [Hb|Hb].
    + destruct b as [|s [|s' b']]; simpl in Hb; try discriminate.
      rewrite eval_batch_single in Hrun. simpl in Hrun.
      eapply IH; [|exact Hrun]. simpl.
      destruct (predict1 p threshold s =? s_label s) eqn:E1;
        destruct (predict1 p threshold s =? 1) eqn:E2;
        destruct (s_label s =? 1) eqn:E3; simpl; lia.
    + rewrite eval_batch_not_single in Hrun by exact Hb. discriminate.
Qed.

Lemma harmonic_mean_bounds (p r : Q) :
  (0 < p <= 1)%Q → (0 < r <= 1)%Q →
  (0 < 2 * p * r / (p + r) <= 1)%Q.
Proof.
  intros [Hp0 Hp1] [Hr0 Hr1].
  assert (Hsum : (0 < p + r)%Q).
  { apply Qlt_trans with p; [exact Hp0|].
    rewrite <- (Qplus_0_r p) at 1. apply Qplus_lt_r. exact Hr0. }
  assert (Hpr : (0 < p * r)%Q) by (apply Qmult_lt_0_compat; assumption).
  split.
  - unfold Qdiv. apply Qmult_lt_0_compat; [|apply Qinv_lt_0_compat, Hsum].
    rewrite <- Qmult_assoc. apply Qmult_lt_0_compat; [reflexivity|exact Hpr].
  - apply Qle_shift_div_r; [exact Hsum|]. rewrite Qmult_1_l.
    assert (H1 : (p * r <= p)%Q).
    { rewrite <- (Qmult_1_r p) at 2. apply Qmult_le_l; assumption. }
    assert (H2 : (p * r <= r)%Q).
    { rewrite <- (Qmult_1_l r) at 2. apply Qmult_le_r; assumption. }
    assert (E : (2 * p * r == p * r + p * r)%Q) by ring. rewrite E.
    apply Qplus_le_compat; assumption.
Qed.

Lemma ratio_positive_unit (a b : Z) :
  0 < a <= b → (0 < inject_Z a / inject_Z b <= 1)%Q.
Proof.
  intros [Ha Hab]. split; [apply ratio_pos; lia|].
  apply ratio_unit_interval; lia.
Qed.

(** X2. Whatever tuple [evaluate_model] returns, each of accuracy,
    precision, recall and F1 lies in (0, 1]: a value of zero is never
    reported, since a run without a correctly predicted positive raises
    instead. *)
Theorem evaluate_model_metrics_positive
    (model : loc) (dl : DataLoader) (threshold : Q) (w : World)
    (accuracy precision recall f1_score : Q) :
  (evaluate_model model dl threshold w).2
    = Ok (accuracy, precision, recall, f1_score) →
  (0 < accuracy <= 1)%Q ∧ (0 < precision <= 1)%Q
  ∧ (0 < recall <= 1)%Q ∧ (0 < f1_score <= 1)%Q.
Proof.
  rewrite evaluate_model_result. unfold evaluate_batches. intros Hret.
  destruct (eval_batches (params_at w model) threshold counters0
              (loader_batches dl w)) as [c|e] eqn:Hrun; [|discriminate].
  simpl in Hret.
  pose proof (eval_batches_counters_ok _ _ _ _ _ counters0_ok Hrun) as Hok.
  assert (Hpc : predicted_positive_correct c <= correct c)
    by (eapply eval_batches_positive_correct; [|exact Hrun]; simpl; lia).
  destruct (Z.eq_dec (predicted_positive_correct c) 0) as [Hz|Hnz].
  { rewrite metrics_zero_denominator in Hret by auto. discriminate. }
  destruct Hok as (H0 & Hpp & Htp & Hpt & Htt & Hc0 & Hct).
  assert (Hpos : 0 < predicted_positive_correct c) by lia.
  rewrite (metrics_defined c) in Hret by (unfold counters_ok; lia || auto).
  injection Hret as <- <- <- <-.
  assert (Hp := ratio_positive_unit (predicted_positive_correct c)
                  (predicted_positive c) ltac:(lia)).
  assert (Hr := ratio_positive_unit (predicted_positive_correct c)
                  (total_positive c) ltac:(lia)).
  split; [apply ratio_positive_unit; lia|].
  split; [exact Hp|]. split; [exact Hr|].
  apply harmonic_mean_bounds; assumption.
Qed.

(** X3. Evaluating over no samples at all raises [ZeroDivisionError]: the
    accuracy is the first division, and [total] is still 0. *)
Theorem evaluate_model_empty_loader
    (model : loc) (dl : DataLoader) (threshold : Q) (w : World) :
  pass_order dl (rng w) = [] →
  (evaluate_model model dl threshold w).2 = Raise ZeroDivisionError.
Proof.
  intros Hempty. rewrite evaluate_model_result.
  unfold loader_batches, start_pass. simpl. rewrite Hempty. reflexivity.
Qed.

Lemma predict1_antitone p s (t1 t2 : Q) :
  (t1 <= t2)%Q → predict1 p t2 s <= predict1 p t1 s.
Proof.
  intros Ht. unfold predict1.
  destruct (Qle_bool (sigmoid (logit_eval p s)) t1) eqn:E1.
  - apply Qle_bool_iff in E1.
    assert (E2 : Qle_bool (sigmoid (logit_eval p s)) t2 = true)
      by (apply Qle_bool_iff; eapply Qle_trans; eauto).
    rewrite E2. lia.
  - destruct (Qle_bool _ t2); lia.
Qed.

Lemma tally_le f g samples :
  (∀ s, f s = true → g s = true) → tally f samples <= tally g samples.
Proof.
  intros Hfg. induction samples as [|s samples IH]; [reflexivity|].
  rewrite !tally_cons. specialize (Hfg s).
  destruct (f s), (g s); simpl; lia.
Qed.

Lemma raising_threshold_confusion
    (p : Params) (t1 t2 : Q) (samples : list Sample) :
  (t1 <= t2)%Q →
  predicted_positive (confusion p t2 samples)
    <= predicted_positive (confusion p t1 samples)
  ∧ predicted_positive_correct (confusion p t2 samples)
    <= predicted_positive_correct (confusion p t1 samples)
  ∧ total (confusion p t2 samples) = total (confusion p t1 samples)
  ∧ total_positive (confusion p t2 samples)
    = total_positive (confusion p t1 samples).
Proof.
  intros Ht.
  assert (Hmono : ∀ s, (predict1 p t2 s =? 1) = true →
                       (predict1 p t1 s =? 1) = true).
  { intros s Hs. apply Z.eqb_eq in Hs. apply Z.eqb_eq.
    pose proof (predict1_antitone p s t1 t2 Ht) as Hle.
    unfold predict1 in *. destruct (Qle_bool _ t1); [lia|reflexivity]. }
  simpl. split; [apply tally_le, Hmono|]. split; [|split; reflexivity].
  apply tally_le. intros s Hs. apply andb_true_iff in Hs as [Hs1 Hs2].
  apply andb_true_iff. split; [apply Hmono, Hs1|exact Hs2].
Qed.

Lemma single_sample_batches (batches : list (list Sample)) :
  Forall (fun b => length b = 1%nat) batches →
  ∃ samples, batches = map (fun s => [s]) samples.
Proof.
  induction 1 as [|b rest Hb _ [samples ->]]; [exists []; reflexivity|].
  destruct b as [|s [|s' b']]; simpl in Hb; try discriminate.
  exists (s :: samples). reflexivity.
Qed.

(** X4. Raising the decision threshold never adds a predicted positive:
    when the loop of [evaluate_model] completes over the same batches at
    thresholds t1 <= t2, the counters of predicted positives and of correctly
    predicted positives at t2 are at most those at t1, while [total] and
    [total_positive] are the same. *)
Theorem raising_threshold_shrinks_positive_counts
    (p : Params) (t1 t2 : Q) (batches : list (list Sample)) (c1 c2 : Counters) :
  (t1 <= t2)%Q →
  eval_batches p t1 counters0 batches = Ok c1 →
  eval_batches p t2 counters0 batches = Ok c2 →
  predicted_positive c2 <= predicted_positive c1
  ∧ predicted_positive_correct c2 <= predicted_positive_correct c1
  ∧ total c2 = total c1
  ∧ total_positive c2 = total_positive c1.
Proof.
  intros Ht H1 H2.
  destruct (single_sample_batches batches (eval_batches_ok_single _ _ _ _ _ H1))
    as [samples ->].
  rewrite eval_batches_singletons in H1, H2.
  injection H1 as <-. injection H2 as <-.
  cbn [total total_positive predicted_positive predicted_positive_correct
       counters0].
  destruct (raising_threshold_confusion p t1 t2 samples Ht) as (A & B & C & D).
  cbn [total total_positive predicted_positive predicted_positive_correct
       confusion] in A, B, C, D.
  lia.
Qed.

End EvaluatorMore.

(** ** What evaluate_model leaves alone, and how the notebook can fail *)

Section EvaluateEffects.
Context `{Libraries}.

Lemma same_state_refl w : same_state w w.
Proof. unfold same_state. split_and!; reflexivity. Qed.

Lemma eval_pass_effects model dl threshold pending :
  ∀ c w,
    same_state w (eval_pass model dl threshold pending c w).1
    ∧ training (eval_pass model dl threshold pending c w).1 = training w
    ∧ rng (eval_pass model dl threshold pending c w).1 = rng w
    ∧ ∃ new,
        trace (eval_pass model dl threshold pending c w).1 = trace w ++ new
        ∧ Forall is_evaluation_batch new.
Proof.
  induction pending as [|chunk rest IH]; intros c w.
  - simpl. split; [apply same_state_refl|]. split; [reflexivity|].
    split; [reflexivity|]. exists []. rewrite app_nil_r.
    split; [reflexivity|constructor].
  - cbn [eval_pass].
    set (batch := fetch (sub_dataset (dl_data dl)) w chunk).
    destruct (eval_batch _ threshold c batch) as [c'|e].
    + destruct (IH c' (emit (EBatch Evaluation batch) w))
        as (Hs & Ht & Hr & new & T & Hnew).
      split; [exact Hs|]. split; [exact Ht|]. split; [exact Hr|].
      exists (EBatch Evaluation batch :: new).
      split; [rewrite T; simpl; rewrite <- app_assoc; reflexivity|].
      constructor; [exact I|exact Hnew].
    + cbn [fst]. split; [unfold same_state; split_and!; reflexivity|].
      split; [reflexivity|].
      split; [reflexivity|]. exists [EBatch Evaluation batch].
      split; [reflexivity|]. repeat constructor.
Qed.

(** X5. [evaluate_model] only reads: it leaves the parameters, the
    gradients, every optimizer and scheduler, the dataset objects, the output
    and the files as they were; it leaves the net in evaluation mode; and the
    only events it adds are evaluation batches. *)
Theorem evaluate_model_only_reads
    (model : loc) (dl : DataLoader) (threshold : Q) (w : World) :
  same_state w (evaluate_model model dl threshold w).1
  ∧ training (evaluate_model model dl threshold w).1 = false
  ∧ ∃ new, trace (evaluate_model model dl threshold w).1 = trace w ++ new
           ∧ Forall is_evaluation_batch new.
Proof.
  unfold evaluate_model, start_pass.
  set (w0 := if dl_shuffle dl then set_rng (S (rng (set_training false w)))
                                     (set_training false w)
             else set_training false w).
  assert (S0 : same_state w w0)
    by (subst w0; destruct (dl_shuffle dl); unfold same_state;
        split_and!; reflexivity).
  assert (M0 : training w0 = false)
    by (subst w0; destruct (dl_shuffle dl); reflexivity).
  assert (T0 : trace w0 = trace w)
    by (subst w0; destruct (dl_shuffle dl); reflexivity).
  destruct (eval_pass_effects model dl threshold
              (chunks (dl_batch_size dl)
                 (pass_order dl (rng (set_training false w))))
              counters0 w0) as (Hs & Ht & _ & new & T & Hnew).
  destruct (eval_pass model dl threshold _ counters0 w0) as [w1 r].
  cbn [fst] in *.
  split; [|split; [congruence|]].
  - unfold same_state in *.
    destruct S0 as (? & ? & ? & ? & ? & ? & ? & ?).
    destruct Hs as (? & ? & ? & ? & ? & ? & ? & ?).
    split_and!; congruence.
  - exists new. split; [congruence|exact Hnew].
Qed.

Lemma evaluate_model_stdout model dl threshold w :
  stdout (evaluate_model model dl threshold w).1 = stdout w.
Proof.
  unfold evaluate_model, start_pass.
  match goal with
  | |- context [eval_pass ?m ?d ?t ?p ?c ?w0] =>
      destruct (eval_pass_effects m d t p c w0) as (Hs & _);
      destruct (eval_pass m d t p c w0) as [w1 r]
  end.
  cbn [fst] in *. destruct Hs as (_ & _ & _ & _ & _ & _ & Hout & _).
  rewrite Hout. destruct (dl_shuffle dl); reflexivity.
Qed.

Lemma metrics_error c e : metrics c = Raise e → e = ZeroDivisionError.
Proof.
  unfold metrics, py_div. intros Hm.
  repeat match type of Hm with
         | context [if ?b then _ else _] => destruct b; simpl in Hm
         end; congruence.
Qed.

Lemma cv_fold_error nb fold split w e :
  (cv_fold nb fold split w).2 = Raise e → e = ZeroDivisionError.
Proof.
  unfold cv_fold. rewrite cv_prepare_eq.
  match goal with
  | |- context [evaluate_model ?m ?d ?t ?w'] =>
      pose proof (evaluate_model_result m d t w') as Hres;
      pose proof (loader_batches_single d w' eq_refl) as Hsingle;
      destruct (evaluate_model m d t w') as [we r]
  end.
  cbn [snd] in Hres. subst r.
  match type of Hsingle with
  | Forall _ ?bs =>
      destruct (eval_batches_single_ok (params_at
                  (train_model (cancer_net nb)
                     (mkLoader (mkSubset (dataset nb) split.1) batch_size true)
                     (length (optimizers w)) (length (schedulers w)) (Some fold)
                     num_epochs
                     (set_datasets
                        (<[dataset nb := Some test_transform]>
                           (<[dataset nb := Some train_transform]> (datasets w)))
                        (set_schedulers
                           (schedulers w
                            ++ [(length (optimizers w), (cyclic_new adamw_new).1)])
                           (set_optimizers
                              (optimizers w
                               ++ [(cancer_net nb, (cyclic_new adamw_new).2)])
                              w))))
                  (cancer_net nb)) (3 # 10) bs Hsingle counters0) as [c Hc]
  end.
  unfold evaluate_batches. rewrite Hc. cbn [mbind result_bind].
  destruct (metrics c) as [m|e'] eqn:Hm; cbn [snd]; [discriminate|].
  intros [= <-]. eapply metrics_error, Hm.
Qed.

Lemma cv_loop_error nb :
  ∀ splits fold totals w e,
    (cv_loop nb fold splits totals w).2 = Raise e → e = ZeroDivisionError.
Proof.
  induction splits as [|split later IH]; intros fold totals w e Hr.
  - discriminate.
  - cbn [cv_loop] in Hr.
    pose proof (cv_fold_error nb fold split w) as Hfold.
    destruct (cv_fold nb fold split w) as [w1 [m|e1]]; cbn [snd] in *.
    + eapply IH, Hr.
    + injection Hr as <-. apply Hfold. reflexivity.
Qed.

(** X6. On a folder of benign and malignant images with at least one of
    each (the folders on which the cells before the cross-validation cell
    load their data and build the loss), the cross-validation cell never runs
    into the ambiguous-Boolean error: from there on the notebook, run from
    top to bottom, either completes or stops in that cell with a
    [ValueError] (the split) or a [ZeroDivisionError] (the metrics of a
    fold); and a run that stops there has saved nothing. *)
Theorem run_all_failure (data : list Z) (e : PyError) :
  Forall (fun label => label = 0 ∨ label = 1) data →
  0 ∈ data → 1 ∈ data →
  (run_all data).2 = Raise e →
  (e = ValueError ∨ e = ZeroDivisionError)
  ∧ files (run_all data).1 = []
  ∧ Forall (fun ev => ¬ is_save ev) (trace (run_all data).1).
Proof.
  intros _ _ _. unfold run_all. rewrite setup_eq.
  set (nb := mkNames 0%nat 1%nat 0%nat 1%nat).
  set (w0 := mkWorld data _ _ _ _ _ _ _ _ _ _).
  assert (Hwf : well_formed nb w0)
    by (pose proof (setup_well_formed data) as Hwf;
        rewrite setup_eq in Hwf; exact Hwf).
  destruct (cross_validate_spec nb w0 Hwf)
    as (_ & _ & _ & Hfi & new & T & Hnew).
  assert (Herr : ∀ e', (cross_validate nb w0).2 = Raise e' →
                       e' = ValueError ∨ e' = ZeroDivisionError).
  { unfold cross_validate, kfold_split. intros e'.
    destruct (folds <? 2)%nat; [cbn [snd]; intros [= <-]; auto|].
    destruct (length (folder w0) <? folds)%nat;
      [cbn [snd]; intros [= <-]; auto|].
    match goal with
    | |- context [cv_loop nb 0 ?sp ?t w0] =>
        pose proof (cv_loop_error nb sp 0%nat t w0) as Hloop;
        destruct (cv_loop nb 0 sp t w0) as [w1 [[[[ta tp] tr] tf]|e1]]
    end; cbn [snd] in *; [discriminate|].
    intros [= <-]. right. apply Hloop. reflexivity. }
  destruct (cross_validate nb w0) as [w1 [[]|e1]]; cbn [fst snd] in *;
    [discriminate|].
  intros [= <-]. split; [apply Herr; reflexivity|]. split; [exact Hfi|].
  rewrite T. simpl. eapply Forall_impl; [exact Hnew|].
  intros ev Hev. destruct ev; simpl in *; tauto.
Qed.

End EvaluateEffects.

(** ** What train_model does besides stepping *)

Lemma chunks_fuel_length_eq {A B : Type} (fuel bs : nat) :
  ∀ (l : list A) (l' : list B), length l = length l' →
  length (chunks_fuel fuel bs l) = length (chunks_fuel fuel bs l').
Proof.
  induction fuel as [|fuel IH]; intros l l' Hlen; [reflexivity|].
  destruct l as [|x l], l' as [|x' l']; simpl in Hlen; try discriminate;
    [reflexivity|].
  cbn [chunks_fuel length]. f_equal. apply IH.
  rewrite !length_drop. simpl. lia.
Qed.

Lemma chunks_length_eq {A B : Type} (bs : nat) (l : list A) (l' : list B) :
  length l = length l' → length (chunks bs l) = length (chunks bs l').
Proof.
  intros Hlen. unfold chunks. rewrite Hlen.
  apply chunks_fuel_length_eq, Hlen.
Qed.

Section TrainerMore.
Context `{Libraries}.

Lemma pass_batches_count dl r :
  (∀ r l, random_sampler r l ≡ₚ l) →
  Z.of_nat (length (chunks (dl_batch_size dl) (pass_order dl r)))
  = loader_len dl.
Proof.
  intros Hsampler. unfold loader_len. f_equal. apply chunks_length_eq.
  unfold pass_order. destruct (dl_shuffle dl); [|reflexivity].
  apply Permutation_length, Hsampler.
Qed.

Lemma count_events_app f tr1 tr2 :
  count_events f (tr1 ++ tr2)
  = (count_events f tr1 + count_events f tr2)%nat.
Proof. unfold count_events. rewrite List.filter_app, length_app. reflexivity. Qed.

Lemma count_pass_events f o s pass :
  (∀ batch, count_events f (batch_events o s batch) = 1%nat) →
  count_events f (pass_events o s pass) = length pass.
Proof.
  intros Hone. induction pass as [|b pass IH]; [reflexivity|].
  rewrite pass_events_cons, count_events_app, Hone, IH. reflexivity.
Qed.

Lemma count_passes f o s ds w bs (orders : list (list nat)) (k : nat) :
  (∀ batch, count_events f (batch_events o s batch) = 1%nat) →
  Forall (fun order => length (chunks bs order) = k) orders →
  count_events f
    (concat (map (fun order => pass_events o s (map (fetch ds w) (chunks bs order)))
                 orders))
  = (length orders * k)%nat.
Proof.
  intros Hone. induction 1 as [|order orders Hk _ IH]; [reflexivity|].
  cbn [map concat length]. rewrite count_events_app, IH.
  rewrite (count_pass_events f o s _ Hone), length_map, Hk. lia.
Qed.

(** X7. [train_model] steps the optimizer and the scheduler once for every
    batch of every epoch and for nothing else: the run adds exactly
    num_epochs * len(data_loader) training batches, as many optimizer steps
    and as many scheduler steps. *)
Theorem train_model_step_counts
    (model : loc) (data_loader : DataLoader) (optimizer scheduler : loc)
    (current_fold : option nat) (num_epochs : nat) (w : World) :
  (∀ r l, random_sampler r l ≡ₚ l) →
  let w' := train_model model data_loader optimizer scheduler current_fold
              num_epochs w in
  let steps := Z.of_nat num_epochs * loader_len data_loader in
  Z.of_nat (count_events is_training_batch (trace w'))
    = Z.of_nat (count_events is_training_batch (trace w)) + steps
  ∧ Z.of_nat (count_events is_optimizer_step (trace w'))
    = Z.of_nat (count_events is_optimizer_step (trace w)) + steps
  ∧ Z.of_nat (count_events is_scheduler_step (trace w'))
    = Z.of_nat (count_events is_scheduler_step (trace w)) + steps.
Proof.
  intros Hsampler w' steps. subst w' steps.
  destruct (train_model_spec model data_loader optimizer scheduler
              current_fold num_epochs w) as [_ (rs & Hlen & T)].
  rewrite T, !count_events_app.
  set (k := length (chunks (dl_batch_size data_loader)
                      (sub_indices (dl_data data_loader)))).
  assert (Hk : Forall (fun order =>
                 length (chunks (dl_batch_size data_loader) order) = k)
                 (map (pass_order data_loader) rs)).
  { apply Forall_map, Forall_forall. intros r _. simpl.
    apply Nat2Z.inj. rewrite (pass_batches_count _ _ Hsampler). reflexivity. }
  assert (Hcount : ∀ f,
            (∀ batch, count_events f (batch_events optimizer scheduler batch)
                      = 1%nat) →
            count_events f
              (concat (map (fun r =>
                 pass_events optimizer scheduler
                   (map (fetch (sub_dataset (dl_data data_loader)) w)
                      (chunks (dl_batch_size data_loader)
                         (pass_order data_loader r)))) rs))
            = (num_epochs * k)%nat).
  { intros f Hone.
    pose proof (count_passes f optimizer scheduler
                  (sub_dataset (dl_data data_loader)) w
                  (dl_batch_size data_loader) _ k Hone Hk) as Hc.
    rewrite map_map, length_map, Hlen in Hc. exact Hc. }
  unfold loader_len. fold k.
  rewrite !Hcount by (intros batch; reflexivity). lia.
Qed.

(** X8. [train_model] changes the net it is given and the optimizer and
    scheduler objects, and nothing else: as long as the optimizers in the
    store work on this net's parameters, every other state dict, the dataset
    objects, the folder and the files are as before, no object is created,
    and the net is left in training mode. *)
Theorem train_model_changes_only_the_net
    (model : loc) (data_loader : DataLoader) (optimizer scheduler : loc)
    (current_fold : option nat) (num_epochs : nat) (w : World) :
  targets_net model w →
  let w' := train_model model data_loader optimizer scheduler current_fold
              num_epochs w in
  (∀ l, l ≠ model → tensors w' !! l = tensors w !! l)
  ∧ datasets w' = datasets w
  ∧ folder w' = folder w
  ∧ files w' = files w
  ∧ length (tensors w') = length (tensors w)
  ∧ length (optimizers w') = length (optimizers w)
  ∧ length (schedulers w') = length (schedulers w)
  ∧ training w' = true.
Proof.
  intros Htg w'. subst w'.
  destruct (train_model_spec model data_loader optimizer scheduler
              current_fold num_epochs w) as [K _].
  destruct K as [Kfo Kds Kfi Kt Ko Ks Kfr].
  destruct (Kfr Htg) as [Hother _].
  split_and!; try assumption.
  unfold train_model. cbn [training print].
  rewrite train_epochs_training. reflexivity.
Qed.

End TrainerMore.

(** ** What train_model and the cross-validation cell print *)

Section Printing.
Context `{Libraries}.

Lemma train_pass_stdout net o s dl fold epoch n pending :
  0 <= epoch < n →
  ∀ i current_loss w,
    0 <= i → i + Z.of_nat (length pending) = loader_len dl →
    ∃ lines,
      stdout (train_pass net o s dl fold epoch n pending i current_loss w)
      = stdout w ++ lines
      ∧ Forall (progress_line fold n (loader_len dl)) lines
      ∧ (pending ≠ [] →
         ∃ l, last lines = Some l ∧ last_batch_line (loader_len dl) l).
Proof.
  intros Hepoch.
  induction pending as [|chunk rest IH]; intros i current_loss w Hi HL.
  - exists []. simpl. rewrite app_nil_r. split; [reflexivity|].
    split; [constructor|]. intros Hne. contradiction.
  - cbn [train_pass]. cbn [length] in HL.
    match goal with
    | |- context [train_batch net o s ?b ?w1] =>
        destruct (train_batch_quiet net o s b w1) as [Hq _];
        destruct (train_batch net o s b w1) as [w2 loss]
    end.
    cbn [fst] in Hq. cbn [stdout emit] in Hq.
    destruct ((i mod 10 =? 9) || (i =? loader_len dl - 1)) eqn:Hcond.
    + assert (Hline : progress_line fold n (loader_len dl)
                        (LogProgress (S <$> fold) (epoch + 1) n (i + 1)
                           (loader_len dl) (current_loss + loss)%Q)).
      { cbn [progress_line]. split_and!; try reflexivity; try lia.
        apply orb_true_iff in Hcond as [Hc|Hc].
        - left. apply Z.eqb_eq in Hc. Z.div_mod_to_equations. lia.
        - right. apply Z.eqb_eq in Hc. lia. }
      destruct rest as [|chunk2 rest'].
      * exists [LogProgress (S <$> fold) (epoch + 1) n (i + 1)
                  (loader_len dl) (current_loss + loss)%Q].
        cbn [train_pass stdout print]. rewrite Hq.
        split; [reflexivity|]. split; [constructor; [exact Hline|constructor]|].
        intros _. eexists. split; [reflexivity|].
        cbn [last_batch_line]. simpl in HL. lia.
      * destruct (IH (i + 1) 0%Q
                    (print (LogProgress (S <$> fold) (epoch + 1) n (i + 1)
                              (loader_len dl) (current_loss + loss)%Q) w2))
          as (lines & Hout & Hall & Hlast); [lia|lia|].
        destruct (Hlast ltac:(discriminate)) as (l & Hl & Hlb).
        exists (LogProgress (S <$> fold) (epoch + 1) n (i + 1)
                  (loader_len dl) (current_loss + loss)%Q :: lines).
        split; [rewrite Hout; cbn [stdout print]; rewrite Hq, <- app_assoc;
                reflexivity|].
        split; [constructor; assumption|].
        intros _. exists l. split; [|exact Hlb].
        rewrite last_cons, Hl. reflexivity.
    + apply orb_false_iff in Hcond as [_ Hc]. apply Z.eqb_neq in Hc.
      destruct rest as [|chunk2 rest']; [simpl in HL; lia|].
      destruct (IH (i + 1) (current_loss + loss)%Q w2)
        as (lines & Hout & Hall & Hlast); [lia|lia|].
      exists lines. split; [rewrite Hout, Hq; reflexivity|].
      split; [exact Hall|]. intros _. apply Hlast. discriminate.
Qed.

Lemma train_epochs_stdout net o s dl fold n epochs :
  (∀ r, Z.of_nat (length (chunks (dl_batch_size dl) (pass_order dl r)))
        = loader_len dl) →
  Forall (fun epoch => (epoch < n)%nat) epochs →
  ∀ w,
    ∃ per_pass : list (list LogLine),
      length per_pass = length epochs
      ∧ stdout (train_epochs net o s dl fold (Z.of_nat n) epochs w)
        = stdout w ++ concat per_pass
      ∧ Forall (Forall (progress_line fold (Z.of_nat n) (loader_len dl)))
               per_pass
      ∧ (0 < loader_len dl →
         Forall (fun lines =>
                   ∃ l, last lines = Some l
                        ∧ last_batch_line (loader_len dl) l) per_pass).
Proof.
  intros Hcount. induction 1 as [|epoch later Hepoch _ IH]; intros w.
  - exists []. simpl. rewrite app_nil_r.
    split_and!; try reflexivity; constructor.
  - cbn [train_epochs]. unfold start_pass.
    set (w0 := if dl_shuffle dl then set_rng (S (rng w)) w else w).
    assert (Hout0 : stdout w0 = stdout w)
      by (subst w0; destruct (dl_shuffle dl); reflexivity).
    destruct (train_pass_stdout net o s dl fold (Z.of_nat epoch) (Z.of_nat n)
                (chunks (dl_batch_size dl) (pass_order dl (rng w)))
                ltac:(lia) 0 0%Q w0 ltac:(lia)
                ltac:(rewrite Hcount; lia))
      as (lines & Hout & Hall & Hlast).
    destruct (IH (train_pass net o s dl fold (Z.of_nat epoch) (Z.of_nat n)
                    (chunks (dl_batch_size dl) (pass_order dl (rng w)))
                    0 0%Q w0))
      as (per_pass & Hlen & Hout' & Hall' & Hlast').
    exists (lines :: per_pass).
    split; [simpl; congruence|].
    split; [rewrite Hout', Hout, Hout0; simpl; rewrite <- app_assoc;
            reflexivity|].
    split; [constructor; assumption|].
    intros Hpos. constructor; [|apply Hlast', Hpos].
    apply Hlast. intros Hnil.
    specialize (Hcount (rng w)). rewrite Hnil in Hcount. simpl in Hcount. lia.
Qed.


Lemma test_lines_snoc_other out l :
  (∀ m, l ≠ LogTest m) → test_lines (out ++ [l]) = test_lines out.
Proof.
  intros Hl. unfold test_lines. rewrite omap_app. simpl.
  destruct l; try (rewrite app_nil_r; reflexivity).
  exfalso. eapply Hl. reflexivity.
Qed.

Lemma train_pass_test_lines net o s dl fold epoch n pending :
  ∀ i current_loss w,
    test_lines (stdout (train_pass net o s dl fold epoch n pending i
                          current_loss w))
    = test_lines (stdout w).
Proof.
  induction pending as [|chunk rest IH]; intros i current_loss w;
    [reflexivity|].
  cbn [train_pass].
  match goal with
  | |- context [train_batch net o s ?b ?w1] =>
      destruct (train_batch_quiet net o s b w1) as [Hq _];
      destruct (train_batch net o s b w1) as [w2 loss]
  end.
  cbn [fst] in Hq. cbn [stdout emit] in Hq.
  destruct ((i mod 10 =? 9) || (i =? loader_len dl - 1)); rewrite IH.
  - cbn [stdout print]. rewrite test_lines_snoc_other by discriminate.
    rewrite Hq. reflexivity.
  - rewrite Hq. reflexivity.
Qed.

Lemma train_epochs_test_lines net o s dl fold n epochs :
  ∀ w,
    test_lines (stdout (train_epochs net o s dl fold n epochs w))
    = test_lines (stdout w).
Proof.
  induction epochs as [|epoch later IH]; intros w; [reflexivity|].
  cbn [train_epochs]. unfold start_pass.
  rewrite IH, train_pass_test_lines. destruct (dl_shuffle dl); reflexivity.
Qed.

Lemma train_model_test_lines net dl o s fold n w :
  test_lines (stdout (train_model net dl o s fold n w)) = test_lines (stdout w).
Proof.
  unfold train_model. cbn [stdout print].
  rewrite test_lines_snoc_other by discriminate.
  rewrite train_epochs_test_lines. reflexivity.
Qed.

Lemma cv_fold_test_lines nb fold split w w' m :
  cv_fold nb fold split w = (w', Ok m) →
  test_lines (stdout w') = test_lines (stdout w) ++ [m].
Proof.
  unfold cv_fold. rewrite cv_prepare_eq.
  match goal with
  | |- context [evaluate_model ?md ?d ?t ?wt] =>
      pose proof (evaluate_model_stdout md d t wt) as Hout;
      pose proof (train_model_test_lines (cancer_net nb)
                    (mkLoader (mkSubset (dataset nb) split.1) batch_size true)
                    (length (optimizers w)) (length (schedulers w))
                    (Some fold) num_epochs
                    (set_datasets
                       (<[dataset nb := Some test_transform]>
                          (<[dataset nb := Some train_transform]> (datasets w)))
                       (set_schedulers
                          (schedulers w
                           ++ [(length (optimizers w), (cyclic_new adamw_new).1)])
                          (set_optimizers
                             (optimizers w
                              ++ [(cancer_net nb, (cyclic_new adamw_new).2)])
                             w)))) as Ht;
      destruct (evaluate_model md d t wt) as [we r]
  end.
  cbn [fst] in Hout.
  cbn [stdout set_datasets set_schedulers set_optimizers] in Ht.
  destruct r as [m'|e]; [|discriminate].
  intros [= <- <-]. cbn [stdout load_state_dict emit set_tensors print].
  unfold test_lines in *. rewrite omap_app, Hout, Ht. reflexivity.
Qed.

Lemma cv_loop_test_lines nb :
  ∀ splits fold totals w w' t,
    cv_loop nb fold splits totals w = (w', Ok t) →
    ∃ ms, length ms = length splits
          ∧ test_lines (stdout w') = test_lines (stdout w) ++ ms
          ∧ t = fold_left add_metrics ms totals.
Proof.
  induction splits as [|split later IH]; intros fold totals w w' t Hloop.
  - injection Hloop as <- <-. exists []. rewrite app_nil_r. auto.
  - cbn [cv_loop] in Hloop.
    destruct (cv_fold nb fold split w) as [w1 [m|e]] eqn:Hfold;
      [|discriminate].
    destruct (IH _ _ _ _ _ Hloop) as (ms & Hlen & Hout & Ht).
    exists (m :: ms). split; [simpl; congruence|].
    split; [|exact Ht].
    rewrite Hout, (cv_fold_test_lines _ _ _ _ _ _ Hfold), <- app_assoc.
    reflexivity.
Qed.

(** X10. When the cross-validation cell completes, it has printed one
    metric tuple per fold, in order, and its last line is their average: each
    of the four sums over the folds, divided by [folds]. *)
Theorem cross_validate_reports_average (nb : Names) (w w' : World) :
  cross_validate nb w = (w', Ok tt) →
  ∃ splits ms ta tp tr tf,
    kfold_split folds (length (folder w)) = Ok splits
    ∧ length ms = length splits
    ∧ test_lines (stdout w') = test_lines (stdout w) ++ ms
    ∧ sum_metrics ms = (ta, tp, tr, tf)
    ∧ last (stdout w')
      = Some (LogAverage (ta / inject_Z (Z.of_nat folds),
                          tp / inject_Z (Z.of_nat folds),
                          tr / inject_Z (Z.of_nat folds),
                          tf / inject_Z (Z.of_nat folds))%Q).
Proof.
  unfold cross_validate.
  destruct (kfold_split folds (length (folder w))) as [splits|e];
    [|discriminate].
  destruct (cv_loop nb 0 splits (0, 0, 0, 0)%Q w)
    as [w1 [[[[ta tp] tr] tf]|e]] eqn:Hloop; [|discriminate].
  intros [= <-].
  destruct (cv_loop_test_lines nb _ _ _ _ _ _ Hloop) as (ms & Hlen & Hout & Ht).
  exists splits, ms, ta, tp, tr, tf.
  split; [reflexivity|]. split; [exact Hlen|].
  split; [cbn [stdout print]; rewrite test_lines_snoc_other by discriminate;
          exact Hout|].
  split; [unfold sum_metrics; congruence|].
  cbn [stdout print]. apply last_snoc.
Qed.

End Printing.

(** ** The mean and standard deviation cell *)

Lemma chunks_fuel_length {A : Type} (bs fuel : nat) :
  (0 < bs)%nat → ∀ l : list A, (length l <= fuel)%nat →
  length (chunks_fuel fuel bs l) = ((length l + bs - 1) / bs)%nat.
Proof.
  intros Hbs. induction fuel as [|fuel IH]; intros l Hlen.
  - destruct l; simpl in Hlen; [|lia]. simpl.
    symmetry. apply Nat.div_small. lia.
  - destruct l as [|x l].
    + simpl. symmetry. apply Nat.div_small. lia.
    + cbn [chunks_fuel length]. rewrite IH by (rewrite length_drop; simpl in *; lia).
      rewrite length_drop. cbn [length].
      replace (S (length l) + bs - 1)%nat
        with (length l + 1 * bs)%nat by lia.
      rewrite Nat.div_add by lia.
      destruct (le_lt_dec (S (length l)) bs) as [Hle|Hgt].
      * replace (S (length l) - bs + bs - 1)%nat with (bs - 1)%nat by lia.
        rewrite !Nat.div_small by lia. reflexivity.
      * replace (S (length l) - bs + bs - 1)%nat with (length l) by lia.
        lia.
Qed.

Lemma chunks_length {A : Type} (bs : nat) (l : list A) :
  (0 < bs)%nat → length (chunks bs l) = ((length l + bs - 1) / bs)%nat.
Proof. intros Hbs. apply chunks_fuel_length; [exact Hbs|lia]. Qed.

Lemma Qsum_app (l k : list Q) : (Qsum (l ++ k) == Qsum l + Qsum k)%Q.
Proof.
  induction l as [|x l IH]; simpl; [ring|]. rewrite IH. ring.
Qed.

Lemma batch_sum_app pixels (a b : list nat) :
  (batch_sum pixels (a ++ b) == batch_sum pixels a + batch_sum pixels b)%Q.
Proof. unfold batch_sum. rewrite map_app. apply Qsum_app. Qed.

Lemma mean_std_loop_sum pixels (pending : list (list nat)) :
  ∀ acc : Q * Q,
    ((fold_left
        (fun acc chunk =>
           (acc.1 + batch_sum pixels chunk,
            acc.2 + batch_sum_2 pixels chunk)%Q) pending acc).1
     == acc.1 + batch_sum pixels (concat pending))%Q.
Proof.
  induction pending as [|chunk rest IH]; intros acc.
  - simpl. unfold batch_sum. simpl. ring.
  - cbn [fold_left concat]. rewrite IH. cbn [fst].
    rewrite batch_sum_app. ring.
Qed.

(** X11. The divisor of the mean and standard deviation cell counts whole
    batches of 32 images: [n] is 224^2 * 32 * ceil(N / 32) for a folder of N
    images.  It is the number of pixels, 224^2 * N, exactly when 32 divides
    N, and larger otherwise; the mean the cell computes is the sum of all
    pixels divided by this [n]. *)
Theorem mean_std_divisor (pixels : nat -> list Q) (n_images : nat) :
  (0 < n_images)%nat →
  let n := mean_std_n n_images in
  n = 224 ^ 2 * 32 * Z.of_nat ((n_images + 31) / 32)
  ∧ 224 ^ 2 * Z.of_nat n_images <= n < 224 ^ 2 * (Z.of_nat n_images + 32)
  ∧ (n = 224 ^ 2 * Z.of_nat n_images ↔ (n_images mod 32 = 0)%nat)
  ∧ ((mean_std pixels n_images).1 * inject_Z n
     == batch_sum pixels (seq 0 n_images))%Q.
Proof.
  intros Hpos n.
  assert (Hn : n = 224 ^ 2 * 32 * Z.of_nat ((n_images + 31) / 32)).
  { subst n. unfold mean_std_n, loader_len. cbn [dl_batch_size dl_data sub_indices].
    rewrite chunks_length by lia. rewrite length_seq.
    replace (n_images + 32 - 1)%nat with (n_images + 31)%nat by lia. lia. }
  pose proof (Nat.div_mod_eq (n_images + 31) 32) as Hdm.
  pose proof (Nat.mod_upper_bound (n_images + 31) 32 ltac:(lia)) as Hr.
  pose proof (Nat.div_mod_eq n_images 32) as Hdm'.
  pose proof (Nat.mod_upper_bound n_images 32 ltac:(lia)) as Hr'.
  split; [exact Hn|]. split; [rewrite Hn; lia|]. split.
  - rewrite Hn. split; intros Heq; nia.
  - unfold mean_std.
    pose proof (mean_std_loop_sum pixels (chunks 32 (seq 0 n_images)) (0, 0)%Q)
      as Hsum.
    fold (mean_std_sums pixels n_images) in Hsum.
    destruct (mean_std_sums pixels n_images) as [sm sm2].
    cbn [fst] in *. rewrite chunks_concat in Hsum by lia.
    rewrite Qplus_0_l in Hsum.
    fold n. rewrite <- Hsum.
    assert (Hnz : ¬ (inject_Z n == 0)%Q)
      by (intros E; apply (proj1 (inject_Z_zero n)) in E; rewrite Hn in E; lia).
    field. exact Hnz.
Qed.

(** * The further properties on the small instance *)

Lemma evaluate_model_single_sample_confusion_witness :
  demo_evaluate [0; 1; 2; 3]%nat 1
  = metrics (mkCounters 4 4 2 2 2).
Proof.
  unfold demo_evaluate.
  rewrite (@evaluate_model_single_sample_confusion demo_libraries
             (cancer_net demo_names) (demo_loader [0; 1; 2; 3]%nat 1)
             (3 # 10) demo_world eq_refl).
  reflexivity.
Defined.

Lemma evaluate_model_metrics_positive_witness :
  demo_evaluate [0; 1; 2; 3]%nat 1 = Ok (4 # 4, 2 # 2, 2 # 2, 32 # 32)%Q
  ∧ (0 < 32 # 32 <= 1)%Q.
Proof.
  assert (Hret : demo_evaluate [0; 1; 2; 3]%nat 1
                 = Ok (4 # 4, 2 # 2, 2 # 2, 32 # 32)%Q)
    by (vm_compute; reflexivity).
  split; [exact Hret|].
  exact (proj2 (proj2 (proj2
           (@evaluate_model_metrics_positive demo_libraries
              (cancer_net demo_names) (demo_loader [0; 1; 2; 3]%nat 1)
              (3 # 10) demo_world _ _ _ _ Hret)))).
Defined.

Lemma evaluate_model_empty_loader_witness :
  demo_evaluate [] 1 = Raise ZeroDivisionError.
Proof.
  apply (@evaluate_model_empty_loader demo_libraries (cancer_net demo_names)
           (demo_loader [] 1) (3 # 10) demo_world).
  reflexivity.
Defined.

Lemma raising_threshold_shrinks_positive_counts_witness :
  predicted_positive (mkCounters 2 1 1 0 0)
  <= predicted_positive (mkCounters 2 2 1 1 1).
Proof.
  refine (proj1 (@raising_threshold_shrinks_positive_counts demo_libraries 0
                   (3 # 10) (8 # 10)
                   [[mkSample 0 None 1]; [mkSample 1 None 0]]
                   (mkCounters 2 2 1 1 1) (mkCounters 2 1 1 0 0) _ _ _)).
  - vm_compute. discriminate.
  - vm_compute. reflexivity.
  - vm_compute. reflexivity.
Defined.

Lemma run_all_failure_witness :
  (@run_all demo_libraries demo_failing_data).2 = Raise ZeroDivisionError
  ∧ @files demo_libraries (@run_all demo_libraries demo_failing_data).1 = [].
Proof.
  assert (Hfail : (@run_all demo_libraries demo_failing_data).2
                  = Raise ZeroDivisionError) by (vm_compute; reflexivity).
  split; [exact Hfail|].
  refine (proj1 (proj2 (@run_all_failure demo_libraries demo_failing_data
                          ZeroDivisionError _ _ _ Hfail))).
  - unfold demo_failing_data. repeat (constructor; [lia|]). constructor.
  - apply list_elem_of_In. simpl. tauto.
  - apply list_elem_of_In. simpl. tauto.
Defined.

Lemma train_model_step_counts_witness :
  Z.of_nat
    (@count_events demo_libraries (@is_optimizer_step demo_libraries)
       (@trace demo_libraries
          (@train_model demo_libraries (cancer_net demo_names)
             (mkLoader (mkSubset (dataset demo_names) [0; 1; 2]%nat) 2 true)
             0%nat 0%nat None 3 demo_world)))
  = 0 + 3 * 2.
Proof.
  refine (proj1 (proj2 (@train_model_step_counts demo_libraries
                          (cancer_net demo_names)
                          (mkLoader (mkSubset (dataset demo_names) [0; 1; 2]%nat)
                             2 true)
                          0%nat 0%nat None 3%nat demo_world _))).
  intros r l. simpl. symmetry. apply Permutation_rev.
Defined.

Lemma train_model_changes_only_the_net_witness :
  @params_at demo_libraries
    (@train_model demo_libraries (cancer_net demo_names)
       (mkLoader (mkSubset (dataset demo_names) [0; 1; 2]%nat) 2 true)
       0%nat 0%nat None 3 demo_train_world) (state_dict demo_names)
  = 0
  ∧ @params_at demo_libraries
      (@train_model demo_libraries (cancer_net demo_names)
         (mkLoader (mkSubset (dataset demo_names) [0; 1; 2]%nat) 2 true)
         0%nat 0%nat None 3 demo_train_world) (cancer_net demo_names)
    = -6
  ∧ @params_at demo_libraries demo_train_world (cancer_net demo_names) = 0
  ∧ @optimizers demo_libraries demo_train_world = [(cancer_net demo_names, 0)].
Proof.
  split; [|split_and!; vm_compute; reflexivity].
  apply (@params_at_same demo_libraries demo_train_world).
  refine (proj1 (@train_model_changes_only_the_net demo_libraries
                   (cancer_net demo_names)
                   (mkLoader (mkSubset (dataset demo_names) [0; 1; 2]%nat) 2 true)
                   0%nat 0%nat None 3%nat demo_train_world _) (state_dict demo_names) _).
  - unfold targets_net. vm_compute. repeat constructor.
  - discriminate.
Defined.


Lemma cross_validate_reports_average_witness :
  ∃ w', @cross_validate demo_libraries demo_names
          (@setup demo_libraries demo_data).2 = (w', Ok tt)
        ∧ length (test_lines (@stdout demo_libraries w')) = 5%nat.
Proof.
  destruct (@cross_validate demo_libraries demo_names
              (@setup demo_libraries demo_data).2) as [w' r] eqn:Hcv.
  destruct r as [[]|e]; [|vm_compute in Hcv; discriminate].
  exists w'. split; [reflexivity|].
  destruct (@cross_validate_reports_average demo_libraries demo_names _ w' Hcv)
    as (splits & ms & ta & tp & tr & tf & Hsplit & Hlen & Hout & _).
  rewrite Hout, length_app, Hlen.
  vm_compute in Hsplit. injection Hsplit as <-. reflexivity.
Defined.

Lemma mean_std_divisor_witness :
  mean_std_n 10 = 224 ^ 2 * 32 * 1
  ∧ ((mean_std demo_pixels 10).1 * inject_Z (mean_std_n 10) == 55 # 2)%Q.
Proof.
  destruct (mean_std_divisor demo_pixels 10 ltac:(lia)) as (Hn & _ & _ & Hmean).
  split; [exact Hn|]. rewrite Hmean. vm_compute. reflexivity.
Defined.
